(** * mender-sdk-python: transport core

    A shallow embedding of the HTTP transport core of the Mender SDK
    (retry policy, error classification, pagination, Location-header id
    extraction) together with the properties stated about it.

    Conventions of the embedding:
    - Python [int] is [Z]; Python [float] is idealised as a rational [Q]
      (no rounding, no infinities, no NaN);
    - [random.random()] is an explicit generator state threaded through
      the code that draws from it;
    - an exception instance is a record carrying its class and attributes;
      a call that may raise returns a [Result];
    - a JSON object is an association list (Python dicts keep insertion
      order, which [str] shows); a plain [dict[str, str]] whose order is
      never observed is a [gmap];
    - strings are byte strings; case folding and digit recognition are the
      ASCII ones. *)

From Stdlib Require Import ZArith QArith Qpower Lia Lqa Bool List Ascii String.
From Stdlib Require Import Numbers.DecimalString.
From Stdlib Require Numbers.DecimalPos.
From stdpp Require Import base option list gmap strings.
Import ListNotations.

Set Warnings "-register-all".

Local Open Scope string_scope.
Local Open Scope Z_scope.

(** ** Python values and builtins *)

Module Py.

(** The values [response.json()] can produce (JSON numbers are modelled by
    integers), plus [None]. *)
Inductive PyVal : Type :=
| PyNone
| PyBool (b : bool)
| PyInt (z : Z)
| PyStr (s : string)
| PyList (l : list PyVal)
| PyDict (d : list (string * PyVal)).

(** Truth value testing: [None], [False], [0], [''], [[]] and [{}] are
    false, everything else is true. *)
Definition truthy (v : PyVal) : bool :=
  match v with
  | PyNone => false
  | PyBool b => b
  | PyInt z => negb (z =? 0)
  | PyStr s => negb (String.eqb s "")
  | PyList l => match l with [] => false | _ => true end
  | PyDict d => match d with [] => false | _ => true end
  end.

(** [a or b] *)
Definition py_or (a b : PyVal) : PyVal := if truthy a then a else b.

(** [d.get(k)]: the value stored under [k], [None] when there is none. *)
Fixpoint dict_lookup (k : string) (d : list (string * PyVal)) : option PyVal :=
  match d with
  | [] => None
  | (k', v) :: d' => if String.eqb k k' then Some v else dict_lookup k d'
  end.

Definition dict_get (k : string) (d : list (string * PyVal)) : PyVal :=
  match dict_lookup k d with
  | Some v => v
  | None => PyNone
  end.

(** *** Strings *)

Definition is_upper (c : ascii) : bool :=
  let n := nat_of_ascii c in (65 <=? n)%nat && (n <=? 90)%nat.

Definition lower_char (c : ascii) : ascii :=
  if is_upper c then ascii_of_nat (nat_of_ascii c + 32) else c.

(** [s.lower()] *)
Fixpoint lower (s : string) : string :=
  match s with
  | EmptyString => EmptyString
  | String c s' => String (lower_char c) (lower s')
  end.

(** [s.split(sep)] for a one-character separator: the pieces between the
    occurrences of [sep]; never the empty list. *)
Fixpoint split (sep : ascii) (s : string) : list string :=
  match s with
  | EmptyString => [EmptyString]
  | String c s' =>
      if Ascii.eqb c sep then EmptyString :: split sep s'
      else match split sep s' with
           | [] => [String c EmptyString]
           | piece :: pieces => String c piece :: pieces
           end
  end.

(** [l[-1]] on a list of strings known to be non-empty. *)
Definition last_item (l : list string) : string := List.last l EmptyString.

(** [", ".join(l)] *)
Fixpoint join_comma (l : list string) : string :=
  match l with
  | [] => EmptyString
  | [x] => x
  | x :: l' => x +:+ ", " +:+ join_comma l'
  end.

(** *** [int(s)] on a string *)

Definition is_space (c : ascii) : bool :=
  let n := nat_of_ascii c in
  ((9 <=? n)%nat && (n <=? 13)%nat) || (28 <=? n)%nat && (n <=? 32)%nat.

Definition digit_val (c : ascii) : option Z :=
  let n := nat_of_ascii c in
  if (48 <=? n)%nat && (n <=? 57)%nat then Some (Z.of_nat (n - 48)) else None.

Fixpoint lstrip (s : string) : string :=
  match s with
  | String c s' => if is_space c then lstrip s' else s
  | EmptyString => EmptyString
  end.

Fixpoint rstrip (s : string) : string :=
  match s with
  | EmptyString => EmptyString
  | String c s' =>
      match rstrip s' with
      | EmptyString => if is_space c then EmptyString else String c EmptyString
      | r => String c r
      end
  end.

Definition strip (s : string) : string := rstrip (lstrip s).

(** Decimal digits, where a single underscore may stand between two
    digits. [acc] is the value read so far, [after_digit] tells that the
    previous character was a digit. *)
Fixpoint digits_value (s : string) (acc : Z) (after_digit : bool) : option Z :=
  match s with
  | EmptyString => if after_digit then Some acc else None
  | String c s' =>
      match digit_val c with
      | Some d => digits_value s' (10 * acc + d) true
      | None =>
          if Ascii.eqb c "_" && after_digit
          then match s' with
               | EmptyString => None
               | String c' _ =>
                   match digit_val c' with
                   | Some _ => digits_value s' acc false
                   | None => None
                   end
               end
          else None
      end
  end.

(** [int(s)]: [None] stands for the [ValueError] Python raises. *)
Definition int_of_str (s : string) : option Z :=
  match strip s with
  | String "-" s' => option_map Z.opp (digits_value s' 0 false)
  | String "+" s' => digits_value s' 0 false
  | s' => digits_value s' 0 false
  end.

(** *** [str(v)] and [repr(v)] *)

Definition str_of_int (z : Z) : string := NilEmpty.string_of_int (Z.to_int z).

Fixpoint contains_char (c : ascii) (s : string) : bool :=
  match s with
  | EmptyString => false
  | String c' s' => Ascii.eqb c c' || contains_char c s'
  end.

Definition hex_digit (n : nat) : ascii :=
  if (n <? 10)%nat then ascii_of_nat (48 + n) else ascii_of_nat (87 + n).

Definition escape_char (quote c : ascii) : string :=
  let n := nat_of_ascii c in
  if Ascii.eqb c quote || Ascii.eqb c "\" then String "\" (String c EmptyString)
  else if (n =? 10)%nat then "\n"
  else if (n =? 13)%nat then "\r"
  else if (n =? 9)%nat then "\t"
  else if (n <? 32)%nat || (n =? 127)%nat
       then String "\" (String "x" (String (hex_digit (n / 16))
                                     (String (hex_digit (n mod 16)) EmptyString)))
  else String c EmptyString.

Fixpoint escape (quote : ascii) (s : string) : string :=
  match s with
  | EmptyString => EmptyString
  | String c s' => escape_char quote c +:+ escape quote s'
  end.

(** [repr(s)]: single quotes, unless the string has a single quote and no
    double quote. *)
Definition repr_str (s : string) : string :=
  let dquote : ascii := ascii_of_nat 34 in
  let quote : ascii :=
    if contains_char "'" s && negb (contains_char dquote s) then dquote else "'"%char in
  String quote (escape quote s) +:+ String quote EmptyString.

Fixpoint repr (v : PyVal) : string :=
  match v with
  | PyNone => "None"
  | PyBool true => "True"
  | PyBool false => "False"
  | PyInt z => str_of_int z
  | PyStr s => repr_str s
  | PyList l => "[" +:+ join_comma (List.map repr l) +:+ "]"
  | PyDict d =>
      "{" +:+ join_comma (List.map (fun kv => repr_str (fst kv) +:+ ": " +:+ repr (snd kv)) d)
          +:+ "}"
  end.

(** [str(v)] *)
Definition str (v : PyVal) : string :=
  match v with
  | PyStr s => s
  | _ => repr v
  end.

End Py.

(** ** mender_sdk/exceptions.py *)

Module Exceptions.
Import Py.

(** The exception classes of the SDK, and the builtin ones the transport
    core can let escape. *)
Inductive ExcClass : Type :=
| MenderError
| MenderAPIError
| MenderAuthenticationError
| MenderAuthorizationError
| MenderNotFoundError
| MenderValidationError
| MenderConflictError
| MenderRateLimitError
| MenderServerError
| MenderConnectionError
| MenderTimeoutError
| ValueError
| RuntimeError
| OtherException.

#[global] Instance ExcClass_eq_dec : EqDecision ExcClass.
Proof. solve_decision. Defined.

(** The direct base class, inside the hierarchy rooted at [Exception]. *)
Definition base_class (c : ExcClass) : option ExcClass :=
  match c with
  | MenderError => None
  | MenderAPIError => Some MenderError
  | MenderAuthenticationError => Some MenderAPIError
  | MenderAuthorizationError => Some MenderAPIError
  | MenderNotFoundError => Some MenderAPIError
  | MenderValidationError => Some MenderAPIError
  | MenderConflictError => Some MenderAPIError
  | MenderRateLimitError => Some MenderAPIError
  | MenderServerError => Some MenderAPIError
  | MenderConnectionError => Some MenderError
  | MenderTimeoutError => Some MenderError
  | ValueError => None
  | RuntimeError => None
  | OtherException => None
  end.

(** [issubclass(c, d)]; the hierarchy has depth two. *)
Definition issubclass (c d : ExcClass) : bool :=
  bool_decide (c = d)
  || match base_class c with
     | Some b =>
         bool_decide (b = d)
         || match base_class b with
            | Some bb => bool_decide (bb = d)
            | None => false
            end
     | None => false
     end.

(** An exception instance: its class and the attributes the constructors
    of exceptions.py set. [status_code], [response_body] and [request_id]
    belong to [MenderAPIError], [retry_after] to [MenderRateLimitError]. *)
Record Exc : Type := mkExc {
  exc_class : ExcClass;
  message : PyVal;
  status_code : option Z;
  response_body : PyVal;
  request_id : option string;
  retry_after : option Z
}.

(** [MenderAPIError(message, status_code, response_body, request_id)] *)
Definition new_MenderAPIError (msg : PyVal) (status : Z) (body : PyVal)
    (rid : option string) : Exc :=
  mkExc MenderAPIError msg (Some status) body rid None.

(** The status-specific subclasses fix the status code. *)
Definition new_MenderAuthenticationError (msg body : PyVal) (rid : option string) : Exc :=
  mkExc MenderAuthenticationError msg (Some 401) body rid None.

Definition new_MenderAuthorizationError (msg body : PyVal) (rid : option string) : Exc :=
  mkExc MenderAuthorizationError msg (Some 403) body rid None.

Definition new_MenderNotFoundError (msg body : PyVal) (rid : option string) : Exc :=
  mkExc MenderNotFoundError msg (Some 404) body rid None.

Definition new_MenderValidationError (msg body : PyVal) (rid : option string) : Exc :=
  mkExc MenderValidationError msg (Some 400) body rid None.

Definition new_MenderConflictError (msg body : PyVal) (rid : option string) : Exc :=
  mkExc MenderConflictError msg (Some 409) body rid None.

Definition new_MenderRateLimitError (msg body : PyVal) (rid : option string)
    (retry_after : option Z) : Exc :=
  mkExc MenderRateLimitError msg (Some 429) body rid retry_after.

Definition new_MenderServerError (msg : PyVal) (status : Z) (body : PyVal)
    (rid : option string) : Exc :=
  mkExc MenderServerError msg (Some status) body rid None.

Definition new_MenderConnectionError (msg : string) : Exc :=
  mkExc MenderConnectionError (PyStr msg) None PyNone None None.

Definition new_MenderTimeoutError (msg : string) : Exc :=
  mkExc MenderTimeoutError (PyStr msg) None PyNone None None.

(** Builtin exceptions carry a message only. *)
Definition new_builtin (c : ExcClass) (msg : string) : Exc :=
  mkExc c (PyStr msg) None PyNone None None.

(** [isinstance(e, c)] *)
Definition isinstance (e : Exc) (c : ExcClass) : bool :=
  issubclass (exc_class e) c.

(** [isinstance(e, classes)] for a tuple of classes, which is what an
    [except classes] clause tests. *)
Definition isinstance_any (e : Exc) (classes : list ExcClass) : bool :=
  existsb (isinstance e) classes.

(** The outcome of a call: a value, or a raised exception. *)
Inductive Result (T : Type) : Type :=
| Ok (v : T)
| Raise (e : Exc).

Arguments Ok {T} v.
Arguments Raise {T} e.

End Exceptions.

(** ** mender_sdk/utils/retry.py *)

Module Retry.
Import Py Exceptions.

Record RetryConfig : Type := mkRetryConfig {
  max_retries : Z;
  base_delay : Q;
  max_delay : Q;
  exponential_base : Q;
  jitter : bool;
  retryable_exceptions : list ExcClass
}.

(** [RetryConfig()] *)
Definition default_config : RetryConfig :=
  mkRetryConfig 3 1%Q 60%Q 2%Q true
    [MenderConnectionError; MenderTimeoutError; MenderServerError; MenderRateLimitError].

(** The state of the [random] module: [draws i] is the value the [i]-th
    call of [random.random()] returns, [drawn] counts the calls made. *)
Record Rng : Type := mkRng {
  draws : nat -> Q;
  drawn : nat
}.

(** [random.random()] *)
Definition random (g : Rng) : Q * Rng :=
  (draws g (drawn g), mkRng (draws g) (S (drawn g))).


(** [a < b] on floats *)
Definition Qltb (a b : Q) : bool := negb (Qle_bool b a).

(** [min(a, b)]: the first argument unless the second is smaller. *)
Definition py_min (a b : Q) : Q := if Qltb b a then b else a.

(** [RetryConfig.calculate_delay] *)
Definition calculate_delay (self : RetryConfig) (attempt : Z)
    (retry_after : option Z) (g : Rng) : Q * Rng :=
  match retry_after with
  | Some k => (inject_Z k, g)
  | None =>
      let delay :=
        py_min (base_delay self * exponential_base self ^ attempt)%Q (max_delay self) in
      if jitter self then
        let (r, g') := random g in
        ((delay * ((1 # 2) + r))%Q, g')
      else (delay, g)
  end.

(** [range(n)] *)
Definition range (n : Z) : list Z := List.map Z.of_nat (seq 0 (Z.to_nat n)).

Section Wrapper.

(** The wrapped coroutine runs against a world [W] it may change, and
    returns a [T] or raises. *)
Context {W T : Type}.
Variable config : RetryConfig.
Variable func : W -> Result T * W.

(** What a run of the wrapper can be observed to do: the world the wrapped
    function left, the generator state, the delays slept (oldest first) and
    the number of calls of the wrapped function. *)
Record Env : Type := mkEnv {
  world : W;
  rng : Rng;
  slept : list Q;
  tries : nat
}.

(** The [for attempt in range(...)] loop of [wrapper], over the attempts
    still to run, and the statements after the loop. *)
Fixpoint wrapper_loop (attempts : list Z) (last_exception : option Exc) (st : Env)
    : Result T * Env :=
  match attempts with
  | [] =>
      match last_exception with
      | Some e => (Raise e, st)
      | None => (Raise (new_builtin RuntimeError "Unexpected state in retry logic"), st)
      end
  | attempt :: rest =>
      let (r, w) := func (world st) in
      let st1 := mkEnv w (rng st) (slept st) (S (tries st)) in
      match r with
      | Ok v => (Ok v, st1)
      | Raise e =>
          if isinstance_any e (retryable_exceptions config) then
            if max_retries config <=? attempt then (Raise e, st1)
            else
              let retry_after :=
                if isinstance e MenderRateLimitError then Exceptions.retry_after e
                else None in
              let (delay, g) := calculate_delay config attempt retry_after (rng st1) in
              wrapper_loop rest (Some e)
                (mkEnv (world st1) g (slept st1 ++ [delay]) (tries st1))
          else (Raise e, st1)
      end
  end.

(** [retry_with_backoff(config)(func)] *)
Definition wrapper (st : Env) : Result T * Env :=
  wrapper_loop (range (max_retries config + 1)) None st.

End Wrapper.

Arguments mkEnv {W} world rng slept tries.
Arguments world {W} e.
Arguments rng {W} e.
Arguments slept {W} e.
Arguments tries {W} e.

End Retry.

(** ** mender_sdk/utils/http.py *)

Module Http.
Import Py Exceptions Retry.

(** [httpx.Headers]: the header fields in the order received. Lookup
    ignores the case of the field name; the values of a repeated field
    are joined with a comma. *)
Definition Headers : Type := list (string * string).

Definition header_values (name : string) (h : Headers) : list string :=
  List.map snd (List.filter (fun kv => String.eqb (lower (fst kv)) (lower name)) h).

(** [headers.get(name)] *)
Definition headers_get (name : string) (h : Headers) : option string :=
  match header_values name h with
  | [] => None
  | vs => Some (join_comma vs)
  end.

(** [headers.get(name, default)] *)
Definition headers_get_default (name default : string) (h : Headers) : string :=
  match headers_get name h with
  | Some v => v
  | None => default
  end.


(** [httpx.Response], as far as the client looks at it. [json] is [None]
    when [response.json()] raises (the body is not JSON). *)
Record Response : Type := mkResponse {
  resp_status : Z;
  resp_headers : Headers;
  resp_json : option PyVal;
  resp_text : string
}.

(** [response.is_success] *)
Definition is_success (r : Response) : bool :=
  (200 <=? resp_status r) && (resp_status r <=? 299).

(** [HTTPClient._extract_error_message] *)
Definition _extract_error_message (response_body : PyVal) : PyVal :=
  match response_body with
  | PyDict d =>
      py_or (dict_get "error" d)
        (py_or (dict_get "message" d)
           (py_or (dict_get "Error" d) (PyStr (str response_body))))
  | _ =>
      if truthy response_body then PyStr (str response_body)
      else PyStr "Unknown error"
  end.

(** The [error_classes] table of [_handle_error_response]. *)
Definition error_classes (status_code : Z) : option ExcClass :=
  if status_code =? 400 then Some MenderValidationError
  else if status_code =? 401 then Some MenderAuthenticationError
  else if status_code =? 403 then Some MenderAuthorizationError
  else if status_code =? 404 then Some MenderNotFoundError
  else if status_code =? 409 then Some MenderConflictError
  else if status_code =? 429 then Some MenderRateLimitError
  else None.

(** [error_class(message=..., response_body=..., request_id=...)] for a
    class of the table. *)
Definition new_error_class (error_class : ExcClass) (msg body : PyVal)
    (rid : option string) : Exc :=
  match error_class with
  | MenderValidationError => new_MenderValidationError msg body rid
  | MenderAuthenticationError => new_MenderAuthenticationError msg body rid
  | MenderAuthorizationError => new_MenderAuthorizationError msg body rid
  | MenderNotFoundError => new_MenderNotFoundError msg body rid
  | MenderConflictError => new_MenderConflictError msg body rid
  | _ => new_MenderRateLimitError msg body rid None
  end.

(** [HTTPClient._handle_error_response]: it never returns; the result is
    the exception it raises. [int(retry_after)] raises [ValueError] on a
    value that is no integer literal, and nothing here catches it. *)
Definition _handle_error_response (response : Response) (request_id : option string)
    : Exc :=
  let status_code := resp_status response in
  let response_body :=
    match resp_json response with
    | Some v => v
    | None => PyStr (resp_text response)
    end in
  let error_message := _extract_error_message response_body in
  match error_classes status_code with
  | Some error_class =>
      if status_code =? 429 then
        match headers_get "Retry-After" (resp_headers response) with
        | Some retry_after =>
            if negb (String.eqb retry_after "") then
              match int_of_str retry_after with
              | Some n =>
                  new_MenderRateLimitError error_message response_body request_id (Some n)
              | None =>
                  new_builtin ValueError
                    ("invalid literal for int() with base 10: " +:+ repr_str retry_after)
              end
            else new_MenderRateLimitError error_message response_body request_id None
        | None => new_MenderRateLimitError error_message response_body request_id None
        end
      else new_error_class error_class error_message response_body request_id
  | None =>
      if (500 <=? status_code) && (status_code <? 600) then
        new_MenderServerError error_message status_code response_body request_id
      else new_MenderAPIError error_message status_code response_body request_id
  end.

(** What [client.request] does: it answers, or raises. *)
Inductive TransportOutcome : Type :=
| Responded (r : Response)
| ConnectError
| TimeoutException
| TransportFailure (e : Exc).

(** [HTTPClient._request], given what the transport did. *)
Definition _request (base_url path : string) (outcome : TransportOutcome)
    : Result Response :=
  match outcome with
  | Responded response =>
      let request_id := headers_get "X-Request-Id" (resp_headers response) in
      if negb (is_success response)
      then Raise (_handle_error_response response request_id)
      else Ok response
  | ConnectError =>
      Raise (new_MenderConnectionError ("Failed to connect to " +:+ base_url))
  | TimeoutException =>
      Raise (new_MenderTimeoutError ("Request to " +:+ path +:+ " timed out"))
  | TransportFailure e => Raise e
  end.

(** [retry_with_backoff(config)]: the defaults when no configuration is
    given. *)
Definition retry_with_backoff {W T : Type} (config : option RetryConfig)
    (func : W -> Result T * W) : Env -> Result T * Env :=
  wrapper (match config with Some c => c | None => default_config end) func.

Section Client.

(** The transport is a world [W] which answers one request at a time. *)
Context {W : Type}.
Variable send : W -> TransportOutcome * W.
Variable base_url path : string.

(** One call of the undecorated method: a request through the transport. *)
Definition request_once (w : W) : Result Response * W :=
  let (outcome, w') := send w in (_request base_url path outcome, w').

(** [HTTPClient.get], [post], [put], [patch] and [delete]: each is
    [_request] under [@retry_with_backoff()]. *)
Definition http_call : Env -> Result Response * Env :=
  retry_with_backoff None request_once.

End Client.

End Http.

(** ** mender_sdk/models/common.py *)

Module Common.
Import Py Exceptions.

Record PaginatedResponse (T : Type) : Type := mkPaginatedResponse {
  items : list T;
  total_count : option Z;
  page : Z;
  per_page : Z;
  has_more : bool
}.

Arguments mkPaginatedResponse {T} items total_count page per_page has_more.
Arguments items {T} p.
Arguments total_count {T} p.
Arguments page {T} p.
Arguments per_page {T} p.
Arguments has_more {T} p.

(** [a or b] on the results of [dict.get] over strings: [a] unless it is
    [None] or empty. *)
Definition or_str (a b : option string) : option string :=
  match a with
  | Some v => if String.eqb v "" then b else a
  | None => b
  end.

(** [PaginatedResponse.from_response]. [headers] is a plain [dict]; the
    [ValueError] of [int(header_value)] is caught and leaves [total_count]
    at [None]. *)
Definition from_response {T : Type} (items : list T) (headers : gmap string string)
    (page per_page : Z) : PaginatedResponse T :=
  let header_value := or_str (headers !! "X-Total-Count") (headers !! "x-total-count") in
  let total_count :=
    match header_value with
    | Some v => if String.eqb v "" then None else int_of_str v
    | None => None
    end in
  let has_more := per_page <=? Z.of_nat (length items) in
  mkPaginatedResponse items total_count page per_page has_more.

End Common.

(** ** mender_sdk/clients *)

Module Clients.
Import Py Exceptions Http Common.

(** *** Listing and iteration (inventory.py, deployments.py) *)


(** How a run of the generator ends. *)
Inductive IterEnd : Type :=
| Exhausted
| Failed (e : Exc).

Section Iteration.

(** The one-page fetch the iterators call ([self.list_devices] and its
    siblings), against a server [W] that may change between fetches. *)
Context {W T : Type}.
Variable fetch_page : W -> Z -> Z -> Result (PaginatedResponse T) * W.
Variable per_page : Z.

(** A full run of the generator: the items yielded in order, the pages
    fetched in order, how it ended and the server state left. *)
Record IterRun : Type := mkIterRun {
  yielded : list T;
  fetched : list Z;
  ending : IterEnd;
  server : W
}.

(** The test that leaves the [while True] loop after a page. *)
Definition stops_after (result : PaginatedResponse T) : bool :=
  negb (has_more result) || (Z.of_nat (length (items result)) <? per_page).

(** The [while True] loop of [iter_devices], [iter_deployments] and
    [iter_artifacts], from page [page] on. [fuel] bounds the number of
    pages; [None] means the bound was reached with the loop still
    running. *)
Fixpoint iter_from (fuel : nat) (w : W) (page : Z) : option IterRun :=
  match fuel with
  | O => None
  | S fuel' =>
      match fetch_page w page per_page with
      | (Raise e, w') => Some (mkIterRun [] [page] (Failed e) w')
      | (Ok result, w') =>
          if stops_after result
          then Some (mkIterRun (items result) [page] Exhausted w')
          else
            match iter_from fuel' w' (page + 1) with
            | Some run =>
                Some (mkIterRun (items result ++ yielded run) (page :: fetched run)
                        (ending run) (server run))
            | None => None
            end
      end
  end.

(** [iter_devices(per_page)]: [page = 1], then the loop. *)
Definition iter_devices (fuel : nat) (w : W) : option IterRun := iter_from fuel w 1.

End Iteration.

Arguments mkIterRun {W T} yielded fetched ending server.
Arguments yielded {W T} i.
Arguments fetched {W T} i.
Arguments ending {W T} i.
Arguments server {W T} i.

(** *** Resource creation (deployments.py, inventory.py) *)

(** The arguments of [self._http.post] the creation calls use. *)
Record PostArgs : Type := mkPostArgs {
  post_path : string;
  post_json : option PyVal;
  post_files : option (string * string);
  post_data : option (list (string * string))
}.

(** [location.split("/")[-1]] *)
Definition location_id (location : string) : string :=
  last_item (split "/" location).

(** The file argument of [upload_artifact]: a path (given by its final
    name component, [Path(file).name]) or an open file, with the final
    component of its [name] attribute when it has one. *)
Inductive FileArg : Type :=
| FromPath (name : string)
| FromFile (name : option string).

(** The request [create_deployment] posts; [deployment] is
    [deployment.to_dict()]. *)
Definition deployment_request (deployment : PyVal) : PostArgs :=
  mkPostArgs "/api/management/v1/deployments/deployments" (Some deployment) None None.

(** The request [create_filter] posts; [terms] are the terms' [to_dict()]. *)
Definition filter_request (name : string) (terms : list PyVal) : PostArgs :=
  mkPostArgs "/api/management/v2/inventory/filters"
    (Some (PyDict [("name", PyStr name); ("terms", PyList terms)])) None None.

(** The request [_upload_artifact_file] posts: the [artifact] file part,
    and the [description] form field when there is a description. *)
Definition artifact_request (filename : string) (description : option string) : PostArgs :=
  let data :=
    match description with
    | Some d => if String.eqb d "" then [] else [("description", d)]
    | None => []
    end in
  mkPostArgs "/api/management/v1/deployments/artifacts" None
    (Some ("artifact", filename))
    (match data with [] => None | _ => Some data end).

Section Creation.

Variable post : PostArgs -> Result Response.

(** [DeploymentsClient.create_deployment] *)
Definition create_deployment (deployment : PyVal) : Result string :=
  match post (deployment_request deployment) with
  | Raise e => Raise e
  | Ok response =>
      let location := headers_get_default "Location" "" (resp_headers response) in
      Ok (location_id location)
  end.

(** [InventoryClient.create_filter] *)
Definition create_filter (name : string) (terms : list PyVal) : Result string :=
  match post (filter_request name terms) with
  | Raise e => Raise e
  | Ok response =>
      let location := headers_get_default "Location" "" (resp_headers response) in
      Ok (location_id location)
  end.

(** [DeploymentsClient._upload_artifact_file] *)
Definition _upload_artifact_file (filename : string) (description : option string)
    : Result string :=
  match post (artifact_request filename description) with
  | Raise e => Raise e
  | Ok response =>
      let location := headers_get_default "Location" "" (resp_headers response) in
      Ok (location_id location)
  end.

(** The file name [upload_artifact] passes on. *)
Definition artifact_filename (file : FileArg) : string :=
  match file with
  | FromPath name => name
  | FromFile (Some name) => name
  | FromFile None => "artifact.mender"
  end.

(** [DeploymentsClient.upload_artifact] *)
Definition upload_artifact (file : FileArg) (description : option string)
    : Result string :=
  _upload_artifact_file (artifact_filename file) description.

End Creation.

End Clients.

(** ** Vocabulary of the properties *)

Import Py Exceptions Retry Http Common Clients.


(** A transport that answers from a script, one outcome per request, and
    times out once the script is used up. *)
Definition scripted (script : list TransportOutcome)
    : TransportOutcome * list TransportOutcome :=
  match script with
  | [] => (TimeoutException, [])
  | o :: rest => (o, rest)
  end.

(** [fetches fetch_page per_page w p rs w']: fetching the pages [p],
    [p + 1], ... one after the other from server state [w] returns the
    pages [rs] in this order and leaves [w']. *)
Inductive fetches {W T : Type} (fetch_page : W -> Z -> Z -> Result (PaginatedResponse T) * W)
    (per_page : Z) : W -> Z -> list (PaginatedResponse T) -> W -> Prop :=
| fetches_nil (w : W) (p : Z) : fetches fetch_page per_page w p [] w
| fetches_cons (w w' w'' : W) (p : Z) (r : PaginatedResponse T)
    (rs : list (PaginatedResponse T)) :
    fetch_page w p per_page = (Ok r, w') ->
    fetches fetch_page per_page w' (p + 1) rs w'' ->
    fetches fetch_page per_page w p (r :: rs) w''.

(** The page numbers [p], [p + 1], ..., [n] of them. *)
Fixpoint pages_from (p : Z) (n : nat) : list Z :=
  match n with
  | O => []
  | S n' => p :: pages_from (p + 1) n'
  end.

(** A page after which the iteration goes on: it claims there is more and
    it is full. *)
Definition goes_on {T : Type} (per_page : Z) (r : PaginatedResponse T) : Prop :=
  has_more r = true /\ per_page <= Z.of_nat (length (items r)).

(** A page after which the iteration ends: it claims there is no more, or
    it has fewer items than asked for. *)
Definition ends_here {T : Type} (per_page : Z) (r : PaginatedResponse T) : Prop :=
  has_more r = false \/ Z.of_nat (length (items r)) < per_page.

(** [seg] is the final path segment of [s]: it has no slash, and it is
    what follows the last slash of [s] (all of [s] when [s] has none). *)
Definition final_segment (seg s : string) : Prop :=
  contains_char "/" seg = false /\
  (s = seg \/ exists pre : string, s = pre +:+ "/" +:+ seg).

(** What a creation call returns given what its POST returned: the error
    of the POST, or the final segment of the [Location] header of the
    response (of the empty string when the header is missing). *)
Definition returns_created_id (posted : Result Response) (returned : Result string) : Prop :=
  match posted with
  | Raise e => returned = Raise e
  | Ok response =>
      exists id : string,
        returned = Ok id /\
        final_segment id (headers_get_default "Location" "" (resp_headers response))
  end.

(** The value of field [k] of a JSON object when the field is there with
    a true value (not [None], [False], [0] or empty). *)
Definition usable_field (k : string) (d : list (string * PyVal)) : option PyVal :=
  match dict_lookup k d with
  | Some v => if truthy v then Some v else None
  | None => None
  end.

(** ** Example data *)

(** A generator whose every draw is 0.9. *)
Definition rng_high : Rng := mkRng (fun _ => 9 # 10)%Q 0.

(** The defaults with jitter switched off. *)
Definition config_no_jitter : RetryConfig :=
  mkRetryConfig 3 1%Q 60%Q 2%Q false
    [MenderConnectionError; MenderTimeoutError; MenderServerError; MenderRateLimitError].

(** A response with the given status, headers and JSON body. *)
Definition response_of (status : Z) (headers : Headers) (body : PyVal) : Response :=
  mkResponse status headers (Some body) "".

Definition response_503 : Response :=
  response_of 503 [] (PyDict [("error", PyStr "unavailable")]).

Definition response_200 : Response :=
  response_of 200 [] (PyDict [("id", PyStr "device-001")]).

Definition response_429 (retry_after : string) : Response :=
  response_of 429 [("Retry-After", retry_after)] (PyDict [("error", PyStr "slow down")]).

(** A wrapper state over a scripted transport. *)
Definition env_of (script : list TransportOutcome) : @Env (list TransportOutcome) :=
  mkEnv script rng_high [] 0.

(** A page of [n] items, claiming there is more. *)
Definition full_claim (n : nat) (page per_page : Z) : PaginatedResponse nat :=
  mkPaginatedResponse (seq 0 n) None page per_page true.

(** A listing with 20 items on pages 1 and 2 and 5 items on page 3, whose
    every page claims there is more; later pages would be full again. *)
Definition three_pages (w : unit) (page per_page : Z)
    : Result (PaginatedResponse nat) * unit :=
  (Ok (full_claim (if page =? 3 then 5 else 20) page per_page), w).

(** A creation answer without a [Location] header. *)
Definition post_without_location (args : PostArgs) : Result Response :=
  Ok (response_of 201 [("Content-Length", "0")] PyNone).

(** A rate-limited response whose [Retry-After] is an HTTP date. *)
Definition response_429_date : Response :=
  response_429 "Wed, 21 Oct 2015 07:28:00 GMT".

(** A body whose [error] field is present and empty. *)
Definition body_empty_error : PyVal :=
  PyDict [("error", PyStr ""); ("message", PyStr "device is busy")].

(** A configuration with a negative retry budget. *)
Definition config_negative : RetryConfig :=
  mkRetryConfig (-1) 1%Q 60%Q 2%Q true
    [MenderConnectionError; MenderTimeoutError; MenderServerError; MenderRateLimitError].


(** ** More of the code: HTTP client set-up, paths, models *)

Module More.

(** *** Strings *)

(** [s.lstrip(c)], [s.rstrip(c)] and [s.strip(c)] for one character. *)
Fixpoint lstrip_char (c : ascii) (s : string) : string :=
  match s with
  | String c' s' => if Ascii.eqb c' c then lstrip_char c s' else s
  | EmptyString => EmptyString
  end.

Fixpoint rstrip_char (c : ascii) (s : string) : string :=
  match s with
  | EmptyString => EmptyString
  | String c' s' =>
      match rstrip_char c s' with
      | EmptyString => if Ascii.eqb c' c then EmptyString else String c' EmptyString
      | r => String c' r
      end
  end.

Definition strip_char (c : ascii) (s : string) : string :=
  rstrip_char c (lstrip_char c s).

(** [s.endswith(c)] *)
Fixpoint ends_with_char (c : ascii) (s : string) : bool :=
  match s with
  | EmptyString => false
  | String c' EmptyString => Ascii.eqb c' c
  | String _ s' => ends_with_char c s'
  end.

(** [c * n]: the character [c], [n] times. *)
Fixpoint repeat_char (c : ascii) (n : nat) : string :=
  match n with
  | O => EmptyString
  | S n' => String c (repeat_char c n')
  end.

(** *** mender_sdk/utils/http.py: construction and request headers *)

Definition DEFAULT_BASE_URL : string := "https://hosted.mender.io".

(** The attributes [HTTPClient.__init__] sets. *)
Record HTTPClient : Type := mkHTTPClient {
  base_url : string;
  token : option string;
  timeout : Q;
  retry_config : RetryConfig;
  verify_ssl : bool
}.

(** [a or b] where [a] is an optional string. *)
Definition str_or (a : option string) (b : string) : string :=
  match a with
  | Some v => if String.eqb v "" then b else v
  | None => b
  end.

(** [HTTPClient.__init__] *)
Definition new_HTTPClient (base_url : option string) (token : option string)
    (timeout : Q) (retry_config : option RetryConfig) (verify_ssl : bool) : HTTPClient :=
  mkHTTPClient
    (rstrip_char "/" (str_or base_url DEFAULT_BASE_URL))
    token timeout
    (match retry_config with Some c => c | None => default_config end)
    verify_ssl.

(** [HTTPClient._headers] *)
Definition _headers (self : HTTPClient) : gmap string string :=
  let headers : gmap string string :=
    <["Content-Type" := "application/json"]> (<["Accept" := "application/json"]> ∅) in
  match token self with
  | Some t =>
      if String.eqb t "" then headers
      else <["Authorization" := "Bearer " +:+ t]> headers
  | None => headers
  end.

(** The headers [_request] sends: the caller's entries over the defaults,
    without [Content-Type] when there are files. [has_files] is the truth
    value of [files]. *)
Definition request_headers (self : HTTPClient) (headers : option (gmap string string))
    (has_files : bool) : gmap string string :=
  let merged : gmap string string :=
    match headers with
    | Some h => h ∪ _headers self
    | None => _headers self
    end in
  if has_files then delete "Content-Type" merged else merged.

(** [HTTPClient.get] and its siblings on a client object: the decorator
    [@retry_with_backoff()] is applied without a configuration. *)
Definition client_call {W : Type} (self : HTTPClient)
    (send : W -> TransportOutcome * W) (path : string)
    : Env -> Result Response * Env :=
  http_call send (base_url self) path.

(** *** mender_sdk/models/common.py: [total_pages] *)

(** [PaginatedResponse.total_pages]; [//] by zero raises
    [ZeroDivisionError], which is no class of its own here. *)
Definition total_pages {T : Type} (self : PaginatedResponse T) : Result (option Z) :=
  match total_count self with
  | None => Ok None
  | Some n =>
      if per_page self =? 0
      then Raise (new_builtin OtherException "integer division or modulo by zero")
      else Ok (Some ((n + per_page self - 1) / per_page self))
  end.

(** *** mender_sdk/clients/base.py *)

(** [BaseClient._build_path] *)
Definition _build_path (BASE_PATH : string) (parts : list string) : string :=
  List.fold_left
    (fun path part =>
       if String.eqb part "" then path
       else path +:+ "/" +:+ strip_char "/" part)
    parts BASE_PATH.

(** *** mender_sdk/clients/inventory.py: search and listing *)

(** The total count [search_devices] reads: [response.headers] is looked
    up directly, and the [ValueError] of [int] is caught. *)
Definition search_total_count (h : Headers) : option Z :=
  match headers_get "X-Total-Count" h with
  | Some v => int_of_str v
  | None => None
  end.


End More.

(** ** mender_sdk/models *)

Module Models.

(** [KeyError] and [TypeError] are no classes of their own here; they are
    raised as [OtherException] with the class name in the message. *)
Definition KeyError (key : string) : Exc :=
  new_builtin OtherException ("KeyError: " +:+ repr_str key).

(** *** models/inventory.py *)

Inductive AttributeScope : Type := IDENTITY | INVENTORY | SYSTEM | TAGS.

#[global] Instance AttributeScope_eq_dec : EqDecision AttributeScope.
Proof. solve_decision. Defined.

(** [scope.value] *)
Definition scope_value (s : AttributeScope) : string :=
  match s with
  | IDENTITY => "identity"
  | INVENTORY => "inventory"
  | SYSTEM => "system"
  | TAGS => "tags"
  end.

(** [AttributeScope(v)]: the member with value [v], [ValueError] when
    there is none. *)
Definition AttributeScope_of (v : PyVal) : Result AttributeScope :=
  let invalid := Raise (new_builtin ValueError (repr v +:+ " is not a valid AttributeScope")) in
  match v with
  | PyStr s =>
      if String.eqb s "identity" then Ok IDENTITY
      else if String.eqb s "inventory" then Ok INVENTORY
      else if String.eqb s "system" then Ok SYSTEM
      else if String.eqb s "tags" then Ok TAGS
      else invalid
  | _ => invalid
  end.

(** The dataclass checks no types: [name] and [description] hold whatever
    they are given. *)
Record DeviceAttribute : Type := mkDeviceAttribute {
  attr_name : PyVal;
  attr_value : PyVal;
  attr_scope : AttributeScope;
  attr_description : PyVal
}.

(** [DeviceAttribute.to_dict] *)
Definition DeviceAttribute_to_dict (self : DeviceAttribute) : list (string * PyVal) :=
  let result :=
    [("name", attr_name self);
     ("value", attr_value self);
     ("scope", PyStr (scope_value (attr_scope self)))] in
  if truthy (attr_description self)
  then result ++ [("description", attr_description self)]
  else result.

(** [DeviceAttribute.from_dict] on a dictionary *)
Definition DeviceAttribute_from_dict (data : list (string * PyVal))
    : Result DeviceAttribute :=
  match dict_lookup "name" data with
  | None => Raise (KeyError "name")
  | Some name =>
      match AttributeScope_of
              (match dict_lookup "scope" data with
               | Some v => v
               | None => PyStr "inventory"
               end) with
      | Raise e => Raise e
      | Ok scope =>
          Ok (mkDeviceAttribute name (dict_get "value" data) scope
                (dict_get "description" data))
      end
  end.

(** [attr.name == name] for a string [name] *)
Definition name_is (name : string) (v : PyVal) : bool :=
  match v with
  | PyStr s => String.eqb s name
  | _ => false
  end.

(** The test of the loop of [Device.get_attribute]. *)
Definition attribute_matches (name : string) (scope : option AttributeScope)
    (attr : DeviceAttribute) : bool :=
  name_is name (attr_name attr)
  && match scope with
     | None => true
     | Some s => bool_decide (attr_scope attr = s)
     end.

(** [Device.get_attribute], on the [attributes] of the device. *)
Fixpoint get_attribute (attributes : list DeviceAttribute) (name : string)
    (scope : option AttributeScope) : option DeviceAttribute :=
  match attributes with
  | [] => None
  | attr :: rest =>
      if attribute_matches name scope attr then Some attr
      else get_attribute rest name scope
  end.

(** [Device.get_attribute_value] *)
Definition get_attribute_value (attributes : list DeviceAttribute) (name : string)
    (scope : option AttributeScope) (default : PyVal) : PyVal :=
  match get_attribute attributes name scope with
  | Some attr => attr_value attr
  | None => default
  end.

(** *** models/deployments.py *)

(** [start_ts] of a phase: a [datetime], given by its [isoformat()], or a
    string. *)
Inductive StartTs : Type :=
| TsDatetime (isoformat : string)
| TsText (text : string).

Record DeploymentPhase : Type := mkDeploymentPhase {
  phase_id : option string;
  batch_size : option Z;
  start_ts : option StartTs;
  phase_device_count : Z
}.

(** [DeploymentPhase.to_dict] *)
Definition DeploymentPhase_to_dict (self : DeploymentPhase) : list (string * PyVal) :=
  (match batch_size self with
   | Some n => [("batch_size", PyInt n)]
   | None => []
   end)
  ++ (match start_ts self with
      | Some (TsDatetime iso) => [("start_ts", PyStr iso)]
      | Some (TsText s) => [("start_ts", PyStr s)]
      | None => []
      end).

Record NewDeployment : Type := mkNewDeployment {
  nd_name : string;
  nd_artifact_name : string;
  nd_devices : option (list string);
  nd_group : option string;
  nd_all_devices : bool;
  nd_phases : option (list DeploymentPhase);
  nd_retries : Z;
  nd_max_devices : option Z;
  nd_filter_id : option string;
  nd_update_control_map : option (list (string * PyVal));
  nd_autogenerate_delta : option bool;
  nd_force_installation : option bool
}.

(** One optional entry of a dictionary under construction. *)
Definition entry_if (cond : bool) (key : string) (v : PyVal) : list (string * PyVal) :=
  if cond then [(key, v)] else [].

(** The truth value of an optional list, string or dictionary. *)
Definition some_nonempty {A : Type} (o : option (list A)) : bool :=
  match o with
  | Some (_ :: _) => true
  | _ => false
  end.

Definition some_nonempty_str (o : option string) : bool :=
  match o with
  | Some s => negb (String.eqb s "")
  | None => false
  end.

(** [NewDeployment.to_dict] *)
Definition NewDeployment_to_dict (self : NewDeployment) : list (string * PyVal) :=
  [("name", PyStr (nd_name self)); ("artifact_name", PyStr (nd_artifact_name self))]
  ++ entry_if (some_nonempty (nd_devices self)) "devices"
       (PyList (List.map PyStr (default [] (nd_devices self))))
  ++ entry_if (some_nonempty_str (nd_group self)) "group"
       (PyStr (default "" (nd_group self)))
  ++ entry_if (nd_all_devices self) "all_devices" (PyBool (nd_all_devices self))
  ++ entry_if (some_nonempty (nd_phases self)) "phases"
       (PyList (List.map (fun p => PyDict (DeploymentPhase_to_dict p))
                  (default [] (nd_phases self))))
  ++ entry_if (0 <? nd_retries self) "retries" (PyInt (nd_retries self))
  ++ (match nd_max_devices self with
      | Some n => [("max_devices", PyInt n)]
      | None => []
      end)
  ++ entry_if (some_nonempty_str (nd_filter_id self)) "filter_id"
       (PyStr (default "" (nd_filter_id self)))
  ++ entry_if (some_nonempty (nd_update_control_map self)) "update_control_map"
       (PyDict (default [] (nd_update_control_map self)))
  ++ (match nd_autogenerate_delta self with
      | Some b => [("autogenerate_delta", PyBool b)]
      | None => []
      end)
  ++ (match nd_force_installation self with
      | Some b => [("force_installation", PyBool b)]
      | None => []
      end).

(** The [NewDeployment] that [create_deployment_for_devices] builds. *)
Definition deployment_for_devices (name artifact_name : string) (device_ids : list string)
    (retries : Z) (force_installation : bool) : NewDeployment :=
  mkNewDeployment name artifact_name (Some device_ids) None false None retries None
    None None None (if force_installation then Some force_installation else None).

(** [DeploymentsClient.create_deployment_for_devices] *)
Definition create_deployment_for_devices (post : PostArgs -> Result Response)
    (name artifact_name : string) (device_ids : list string) (retries : Z)
    (force_installation : bool) : Result string :=
  create_deployment post
    (PyDict (NewDeployment_to_dict
               (deployment_for_devices name artifact_name device_ids retries
                  force_installation))).

End Models.

(** ** More example data *)

Import More Models.

(** A listing whose second page cannot be fetched. *)
Definition failing_second_page (w : unit) (page per_page : Z)
    : Result (PaginatedResponse nat) * unit :=
  if page =? 1 then (Ok (full_claim 20 1 per_page), w)
  else (Raise (new_MenderTimeoutError "Request to /devices timed out"), w).



(** ** The retry delay *)

Section Delay.

Local Open Scope Q_scope.







End Delay.

(** ** The retry wrapper *)

Local Open Scope list_scope.


Section WrapperFacts.

Context {W T : Type}.
Variable cfg : RetryConfig.
Variable func : W -> Result T * W.

(** The four ways one pass through the loop body can go. *)





(** The number of calls grows by at most one per attempt. *)
Lemma wrapper_loop_tries (attempts : list Z) (last : option Exc) (st : Env) :
  (tries (snd (wrapper_loop cfg func attempts last st))
   <= tries st + length attempts)%nat.
Proof.
  revert last st. induction attempts as [| a rest IH]; intros last st.
  - simpl. destruct last; simpl; lia.
  - simpl. destruct (func (world st)) as [[v | e] w]; simpl; [lia |].
    destruct (isinstance_any e (retryable_exceptions cfg)); simpl; [| lia].
    destruct (max_retries cfg <=? a); simpl; [lia |].
    destruct (calculate_delay cfg a _ (rng st)) as [delay g].
    specialize (IH (Some e) (mkEnv w g (slept st ++ [delay]) (S (tries st)))).
    simpl in IH. lia.
Qed.


End WrapperFacts.











Section Budget.

Context {W T : Type}.
Variable cfg : RetryConfig.
Variable func : W -> Result T * W.
Hypothesis budget : 0 <= max_retries cfg.




End Budget.

(** With a negative [max_retries] the loop body never runs: the wrapped
    operation is not called and the statements after the loop raise
    [RuntimeError]. *)
Lemma wrapper_negative_budget {W T : Type} (cfg : RetryConfig)
    (func : W -> Result T * W) (st : Env) :
  max_retries cfg < 0 ->
  wrapper cfg func st =
  (Raise (new_builtin RuntimeError "Unexpected state in retry logic"), st).
Proof.
  intros H. unfold wrapper, range.
  replace (Z.to_nat (max_retries cfg + 1)) with 0%nat by lia.
  reflexivity.
Qed.



(** ** Retry eligibility *)





(** ** Server-suggested delay *)



(** ** Rate-limit classification *)

(** Status 429 with no [Retry-After] header, or an empty one, is a
    [MenderRateLimitError] without a suggested delay. *)
Lemma rate_limit_without_hint (r : Response) (rid : option string) :
  resp_status r = 429 ->
  headers_get "Retry-After" (resp_headers r) = None \/
  headers_get "Retry-After" (resp_headers r) = Some "" ->
  exc_class (_handle_error_response r rid) = MenderRateLimitError /\
  retry_after (_handle_error_response r rid) = None.
Proof.
  intros Hs H. unfold _handle_error_response. rewrite Hs. simpl.
  destruct H as [-> | ->]; simpl; split; reflexivity.
Qed.

(** Status 429 with a [Retry-After] header that [int] accepts is a
    [MenderRateLimitError] carrying the parsed number of seconds. *)
Lemma rate_limit_with_hint (r : Response) (rid : option string) (v : string) (n : Z) :
  resp_status r = 429 ->
  headers_get "Retry-After" (resp_headers r) = Some v ->
  int_of_str v = Some n ->
  exc_class (_handle_error_response r rid) = MenderRateLimitError /\
  retry_after (_handle_error_response r rid) = Some n.
Proof.
  intros Hs Hh Hv. unfold _handle_error_response. rewrite Hs. simpl. rewrite Hh.
  destruct (String.eqb_spec v "") as [-> | _]; [discriminate |].
  simpl. rewrite Hv. split; reflexivity.
Qed.

(** Status 429 with a non-empty [Retry-After] header that [int] rejects
    raises the [ValueError] of [int]. *)
Lemma rate_limit_bad_hint (r : Response) (rid : option string) (v : string) :
  resp_status r = 429 ->
  headers_get "Retry-After" (resp_headers r) = Some v ->
  v <> "" ->
  int_of_str v = None ->
  exc_class (_handle_error_response r rid) = ValueError.
Proof.
  intros Hs Hh Hne Hv. unfold _handle_error_response. rewrite Hs. simpl. rewrite Hh.
  destruct (String.eqb_spec v "") as [-> | _]; [congruence |].
  simpl. rewrite Hv. reflexivity.
Qed.

(** C4, at a 429 response whose [Retry-After] is an HTTP date: [int]
    rejects the value, the classifier raises [ValueError] instead of a
    [MenderRateLimitError] without delay, and the client lets it through
    after a single try. *)
Theorem rate_limit_unparsable_retry_after :
  int_of_str "Wed, 21 Oct 2015 07:28:00 GMT" = None /\
  _handle_error_response response_429_date None =
    new_builtin ValueError
      "invalid literal for int() with base 10: 'Wed, 21 Oct 2015 07:28:00 GMT'" /\
  http_call scripted "https://hosted.mender.io" "/devices"
    (env_of [Responded response_429_date; Responded response_200])
  = (Raise (new_builtin ValueError
              "invalid literal for int() with base 10: 'Wed, 21 Oct 2015 07:28:00 GMT'"),
     mkEnv [Responded response_200] rng_high [] 1).
Proof. split; [| split]; reflexivity. Qed.

(** ** Error message extraction *)

Lemma py_or_usable (k : string) (d : list (string * PyVal)) (b : PyVal) :
  py_or (dict_get k d) b =
  match usable_field k d with
  | Some v => v
  | None => b
  end.
Proof.
  unfold py_or, dict_get, usable_field.
  destruct (dict_lookup k d) as [v |]; [| reflexivity].
  destruct (truthy v); reflexivity.
Qed.

(** C7, as stated, fails: a body whose [error] field is present but empty
    yields its [message] field. *)
Lemma extract_error_message_skips_empty_error :
  dict_lookup "error" [("error", PyStr ""); ("message", PyStr "device is busy")]
    = Some (PyStr "") /\
  _extract_error_message body_empty_error = PyStr "device is busy" /\
  _extract_error_message body_empty_error <> PyStr "".
Proof. split; [reflexivity | split; [reflexivity | discriminate]]. Qed.

(** C7, amended: a field counts when it is present with a true value. For
    a JSON object the message is the [error] field if it counts, else the
    [message] field if it counts, else the [Error] field if it counts, else
    the stringified body; for any other body it is the stringified body
    when the body is true and "Unknown error" otherwise. In particular
    [{"error": "bad input"}] yields "bad input" and an object with none of
    the three keys yields the stringified body. *)
Theorem extract_error_message_preference :
  (forall (d : list (string * PyVal)) (v : PyVal),
     usable_field "error" d = Some v ->
     _extract_error_message (PyDict d) = v) /\
  (forall (d : list (string * PyVal)) (v : PyVal),
     usable_field "error" d = None ->
     usable_field "message" d = Some v ->
     _extract_error_message (PyDict d) = v) /\
  (forall (d : list (string * PyVal)) (v : PyVal),
     usable_field "error" d = None ->
     usable_field "message" d = None ->
     usable_field "Error" d = Some v ->
     _extract_error_message (PyDict d) = v) /\
  (forall d : list (string * PyVal),
     usable_field "error" d = None ->
     usable_field "message" d = None ->
     usable_field "Error" d = None ->
     _extract_error_message (PyDict d) = PyStr (str (PyDict d))) /\
  (forall body : PyVal,
     (forall d, body <> PyDict d) ->
     _extract_error_message body =
     if truthy body then PyStr (str body) else PyStr "Unknown error") /\
  _extract_error_message (PyDict [("error", PyStr "bad input")]) = PyStr "bad input" /\
  (forall d : list (string * PyVal),
     dict_lookup "error" d = None ->
     dict_lookup "message" d = None ->
     dict_lookup "Error" d = None ->
     _extract_error_message (PyDict d) = PyStr (str (PyDict d))).
Proof.
  repeat split.
  - intros d v H. unfold _extract_error_message.
    rewrite py_or_usable, H. reflexivity.
  - intros d v H1 H2. unfold _extract_error_message.
    rewrite !py_or_usable, H1, H2. reflexivity.
  - intros d v H1 H2 H3. unfold _extract_error_message.
    rewrite !py_or_usable, H1, H2, H3. reflexivity.
  - intros d H1 H2 H3. unfold _extract_error_message.
    rewrite !py_or_usable, H1, H2, H3. reflexivity.
  - intros body H. destruct body; try reflexivity.
    exfalso. eapply H. reflexivity.
  - intros d H1 H2 H3. unfold _extract_error_message.
    rewrite !py_or_usable. unfold usable_field. rewrite H1, H2, H3. reflexivity.
Qed.

Lemma extract_error_message_preference_witness :
  _extract_error_message body_empty_error = PyStr "device is busy" /\
  _extract_error_message (PyDict [("code", PyInt 7)]) = PyStr "{'code': 7}" /\
  _extract_error_message (PyStr "") = PyStr "Unknown error".
Proof.
  destruct extract_error_message_preference as (_ & H2 & _ & _ & H5 & _ & H7).
  split; [| split].
  - apply (H2 [("error", PyStr ""); ("message", PyStr "device is busy")]).
    + reflexivity.
    + reflexivity.
  - apply (H7 [("code", PyInt 7)]); reflexivity.
  - apply (H5 (PyStr "")). intros d. discriminate.
Defined.

(** ** Paginated responses *)

(** [has_more] compares the number of items with the page size. *)
Lemma from_response_has_more {T : Type} (l : list T) (headers : gmap string string)
    (p pp : Z) :
  has_more (from_response l headers p pp) = (pp <=? Z.of_nat (length l)).
Proof. reflexivity. Qed.

(** A header value [int] rejects leaves [total_count] at [None]. *)
Lemma from_response_unparsable {T : Type} (l : list T) (headers : gmap string string)
    (p pp : Z) (v : string) :
  headers !! "X-Total-Count" = Some v ->
  v <> "" ->
  int_of_str v = None ->
  total_count (from_response l headers p pp) = None.
Proof.
  intros Hh Hne Hv. unfold from_response, or_str. simpl. rewrite Hh.
  destruct (String.eqb_spec v "") as [-> | _]; [congruence |].
  destruct (String.eqb_spec v "") as [-> | _]; [congruence |].
  exact Hv.
Qed.

(** *** Through the listing calls *)

(** The listing calls hand [dict(response.headers)] to [from_response];
    httpx lower-cases the field names there, so on this path the header
    is found however the server spells it. *)

Lemma headers_get_same_lower (name name' : string) (h : Headers) :
  lower name = lower name' -> headers_get name h = headers_get name' h.
Proof. intros H. unfold headers_get, header_values. rewrite H. reflexivity. Qed.









(** For a page built by [from_response] the two tests of the iterators
    agree: it goes on exactly when the page is full. *)
Lemma from_response_stops_after {T : Type} (l : list T) (headers : gmap string string)
    (p pp : Z) :
  stops_after pp (from_response l headers p pp) = (Z.of_nat (length l) <? pp).
Proof.
  unfold stops_after, from_response. simpl.
  destruct (Z.leb_spec pp (Z.of_nat (length l)));
    destruct (Z.ltb_spec (Z.of_nat (length l)) pp); simpl; try reflexivity; lia.
Qed.

(** C8, at a header dictionary that spells the name in upper case: the
    two spellings [from_response] looks up are found, another one is not,
    and [total_count] stays [None]. *)
Theorem from_response_header_casing :
  total_count (from_response [1; 2]%nat {["X-Total-Count" := "42"]} 1 20) = Some 42 /\
  total_count (from_response [1; 2]%nat {["x-total-count" := "42"]} 1 20) = Some 42 /\
  total_count (from_response [1; 2]%nat {["X-TOTAL-COUNT" := "42"]} 1 20) = None /\
  total_count (from_response [1; 2]%nat {["X-Total-count" := "42"]} 1 20) = None.
Proof. repeat split; vm_compute; reflexivity. Qed.

(** ** Pagination *)

Section IterationFacts.

Context {W T : Type}.
Variable fetch_page : W -> Z -> Z -> Result (PaginatedResponse T) * W.
Variable per_page : Z.

Lemma goes_on_stops_after (r : PaginatedResponse T) :
  goes_on per_page r -> stops_after per_page r = false.
Proof.
  intros [Hm Hl]. unfold stops_after. rewrite Hm. simpl.
  destruct (Z.ltb_spec (Z.of_nat (length (items r))) per_page); [lia | reflexivity].
Qed.

Lemma ends_here_stops_after (r : PaginatedResponse T) :
  ends_here per_page r -> stops_after per_page r = true.
Proof.
  intros [Hm | Hl]; unfold stops_after.
  - rewrite Hm. reflexivity.
  - destruct (Z.ltb_spec (Z.of_nat (length (items r))) per_page); [| lia].
    apply orb_true_r.
Qed.

(** The loop passes every page that goes on and ends with the first page
    that does not. *)
Lemma iter_from_run (rs : list (PaginatedResponse T)) :
  forall (r : PaginatedResponse T) (w w' : W) (p : Z) (fuel : nat),
    fetches fetch_page per_page w p (rs ++ [r]) w' ->
    Forall (goes_on per_page) rs ->
    ends_here per_page r ->
    (length rs < fuel)%nat ->
    iter_from fetch_page per_page fuel w p =
    Some (mkIterRun (concat (List.map items (rs ++ [r])))
            (pages_from p (S (length rs))) Exhausted w').
Proof.
  induction rs as [| x rs IH]; intros r w w' p fuel Hf Hg He Hfuel.
  - destruct fuel as [| fuel]; [simpl in Hfuel; lia |].
    inversion Hf as [| w0 w1 w2 p0 r0 rs0 Hx Hrest]; subst.
    inversion Hrest; subst.
    simpl. rewrite Hx, (ends_here_stops_after r He), app_nil_r. reflexivity.
  - destruct fuel as [| fuel]; [simpl in Hfuel; lia |].
    simpl in Hf. inversion Hf as [| w0 w1 w2 p0 r0 rs0 Hx Hrest]; subst.
    inversion Hg as [| ? ? Hg1 Hg2]; subst.
    cbn [iter_from]. rewrite Hx, (goes_on_stops_after x Hg1).
    rewrite (IH r w1 w' (p + 1) fuel Hrest Hg2 He) by (simpl in Hfuel; lia).
    reflexivity.
Qed.

(** As long as the pages go on, so does the loop. *)
Lemma iter_from_goes_on (rs : list (PaginatedResponse T)) :
  forall (w w' : W) (p : Z),
    fetches fetch_page per_page w p rs w' ->
    Forall (goes_on per_page) rs ->
    iter_from fetch_page per_page (length rs) w p = None.
Proof.
  induction rs as [| x rs IH]; intros w w' p Hf Hg; [reflexivity |].
  inversion Hf as [| w0 w1 w2 p0 r0 rs0 Hx Hrest]; subst.
  inversion Hg as [| ? ? Hg1 Hg2]; subst.
  cbn [length iter_from]. rewrite Hx, (goes_on_stops_after x Hg1).
  rewrite (IH w1 w' (p + 1) Hrest Hg2). reflexivity.
Qed.

End IterationFacts.

(** C6: for every one-page fetch function, when the pages fetched from
    page 1 on go on (more is claimed and the page is full) up to a first
    page that claims no more or has fewer items than the page size, the
    iterator yields the items of exactly these pages, in order, fetches
    exactly these pages and stops; while all pages go on it does not stop.
    With page size 20 and pages of 20, 20 and 5 items, all claiming more,
    it yields 45 items and fetches the pages 1, 2 and 3 only. *)
Theorem iter_devices_stops_at_first_short_page :
  (forall (W T : Type) (fetch_page : W -> Z -> Z -> Result (PaginatedResponse T) * W)
          (per_page : Z) (w w' : W) (rs : list (PaginatedResponse T))
          (r : PaginatedResponse T) (fuel : nat),
     fetches fetch_page per_page w 1 (rs ++ [r]) w' ->
     Forall (goes_on per_page) rs ->
     ends_here per_page r ->
     (length rs < fuel)%nat ->
     iter_devices fetch_page per_page fuel w =
     Some (mkIterRun (concat (List.map items (rs ++ [r])))
             (pages_from 1 (S (length rs))) Exhausted w')) /\
  (forall (W T : Type) (fetch_page : W -> Z -> Z -> Result (PaginatedResponse T) * W)
          (per_page : Z) (w w' : W) (rs : list (PaginatedResponse T)),
     fetches fetch_page per_page w 1 rs w' ->
     Forall (goes_on per_page) rs ->
     iter_devices fetch_page per_page (length rs) w = None) /\
  (forall fuel : nat,
     (3 <= fuel)%nat ->
     exists run : IterRun,
       iter_devices three_pages 20 fuel tt = Some run /\
       length (yielded run) = 45%nat /\
       fetched run = [1; 2; 3] /\
       ending run = Exhausted).
Proof.
  split; [| split].
  - intros W T fetch_page per_page w w' rs r fuel. apply iter_from_run.
  - intros W T fetch_page per_page w w' rs. apply iter_from_goes_on.
  - intros fuel Hfuel.
    eexists. split.
    + apply (iter_from_run three_pages 20
               [full_claim 20 1 20; full_claim 20 2 20] (full_claim 5 3 20) tt tt 1 fuel).
      * repeat econstructor.
      * repeat constructor; simpl; lia.
      * right. simpl. lia.
      * simpl. lia.
    + repeat split.
Qed.

Lemma iter_devices_stops_at_first_short_page_witness :
  iter_devices three_pages 20 5 tt =
  Some (mkIterRun (seq 0 20 ++ seq 0 20 ++ seq 0 5 ++ []) [1; 2; 3] Exhausted tt).
Proof.
  apply (proj1 iter_devices_stops_at_first_short_page unit nat three_pages 20 tt tt
           [full_claim 20 1 20; full_claim 20 2 20] (full_claim 5 3 20) 5%nat).
  - repeat econstructor.
  - repeat constructor; simpl; lia.
  - right. simpl. lia.
  - simpl. lia.
Defined.

(** ** Identifiers of created resources *)

(** [split] either leaves the string whole, or cuts it at slashes so that
    the last piece is what follows the last slash. *)
Lemma split_last (s : string) :
  contains_char "/" (last_item (split "/" s)) = false /\
  (split "/" s = [s] \/
   exists (x : string) (l : list string) (pre : string),
     split "/" s = x :: l /\ l <> [] /\ s = pre +:+ "/" +:+ last_item (split "/" s)).
Proof.
  induction s as [| c s [IHc IHs]].
  - split; [reflexivity | left; reflexivity].
  - cbn [split]. destruct (Ascii.eqb_spec c "/") as [-> | Hc].
    + assert (Hne : split "/" s <> []).
      { destruct IHs as [-> | (x & l & _ & -> & _ & _)]; discriminate. }
      assert (Hlast : last_item (EmptyString :: split "/" s) = last_item (split "/" s)).
      { unfold last_item. destruct (split "/" s); [congruence | reflexivity]. }
      rewrite Hlast. split; [exact IHc |].
      right. exists EmptyString, (split "/" s).
      destruct IHs as [Hs | (x & l & pre & Hs & Hl & Hpre)].
      * exists EmptyString. rewrite Hs. split; [reflexivity |].
        split; [discriminate | reflexivity].
      * exists (String "/" pre). split; [reflexivity |].
        split; [exact Hne |]. exact (f_equal (String "/"%char) Hpre).
    + destruct IHs as [Hs | (x & l & pre & Hs & Hl & Hpre)].
      * rewrite Hs in *. unfold last_item in *. cbn [List.last] in *.
        split; [| left; reflexivity].
        cbn [contains_char]. rewrite IHc.
        destruct (Ascii.eqb_spec "/"%char c); [congruence | reflexivity].
      * rewrite Hs in *.
        assert (Hlast : last_item (String c x :: l) = last_item (x :: l)).
        { unfold last_item. destruct l; [congruence | reflexivity]. }
        rewrite Hlast. split; [exact IHc |].
        right. exists (String c x), l, (String c pre).
        split; [reflexivity |].
        split; [exact Hl |]. exact (f_equal (String c) Hpre).
Qed.

Lemma location_id_final_segment (s : string) : final_segment (location_id s) s.
Proof.
  unfold final_segment, location_id.
  destruct (split_last s) as [Hc Hs]. split; [exact Hc |].
  destruct Hs as [Hs | (x & l & pre & _ & _ & Hpre)].
  - left. rewrite Hs. reflexivity.
  - right. exists pre. exact Hpre.
Qed.

(** C9: each creation call hands on the error of its POST, and on success
    returns the final path segment of the [Location] header of the
    response; [/deployments/abc-123] gives [abc-123]. *)
Theorem created_id_from_location (post : PostArgs -> Result Response) :
  (forall deployment : PyVal,
     returns_created_id (post (deployment_request deployment))
       (create_deployment post deployment)) /\
  (forall (name : string) (terms : list PyVal),
     returns_created_id (post (filter_request name terms))
       (create_filter post name terms)) /\
  (forall (file : FileArg) (description : option string),
     returns_created_id (post (artifact_request (artifact_filename file) description))
       (upload_artifact post file description)) /\
  location_id "/deployments/abc-123" = "abc-123".
Proof.
  repeat split.
  - intros deployment. unfold returns_created_id, create_deployment.
    destruct (post _) as [response | e]; [| reflexivity].
    eexists. split; [reflexivity | apply location_id_final_segment].
  - intros name terms. unfold returns_created_id, create_filter.
    destruct (post _) as [response | e]; [| reflexivity].
    eexists. split; [reflexivity | apply location_id_final_segment].
  - intros file description.
    unfold returns_created_id, upload_artifact, _upload_artifact_file.
    destruct (post _) as [response | e]; [| reflexivity].
    eexists. split; [reflexivity | apply location_id_final_segment].
Qed.

(** C10: when the POST of a creation call succeeds with a response that
    has no [Location] header, the call returns the empty string. *)
Theorem created_id_without_location (post : PostArgs -> Result Response)
    (response : Response) :
  headers_get "Location" (resp_headers response) = None ->
  (forall deployment : PyVal,
     post (deployment_request deployment) = Ok response ->
     create_deployment post deployment = Ok "") /\
  (forall (name : string) (terms : list PyVal),
     post (filter_request name terms) = Ok response ->
     create_filter post name terms = Ok "") /\
  (forall (file : FileArg) (description : option string),
     post (artifact_request (artifact_filename file) description) = Ok response ->
     upload_artifact post file description = Ok "").
Proof.
  intros Hloc. repeat split.
  - intros deployment Hp. unfold create_deployment, headers_get_default.
    rewrite Hp, Hloc. reflexivity.
  - intros name terms Hp. unfold create_filter, headers_get_default.
    rewrite Hp, Hloc. reflexivity.
  - intros file description Hp.
    unfold upload_artifact, _upload_artifact_file, headers_get_default.
    rewrite Hp, Hloc. reflexivity.
Qed.

Lemma created_id_without_location_witness :
  create_deployment post_without_location (PyDict [("name", PyStr "rollout")]) = Ok "" /\
  create_filter post_without_location "rpi" [] = Ok "" /\
  upload_artifact post_without_location (FromPath "release.mender") None = Ok "".
Proof.
  destruct (created_id_without_location post_without_location
              (response_of 201 [("Content-Length", "0")] PyNone) eq_refl)
    as (H1 & H2 & H3).
  split; [| split].
  - apply H1. reflexivity.
  - apply H2. reflexivity.
  - apply H3. reflexivity.
Defined.

(** ** More on the retry policy *)

Section DelayShape.

Local Open Scope Q_scope.







End DelayShape.

Section WrapperShape.

Context {W T : Type}.
Variable cfg : RetryConfig.
Variable func : W -> Result T * W.


(** With jitter off the loop draws no random number. *)
Lemma wrapper_loop_no_jitter (attempts : list Z) :
  forall (last : option Exc) (st : Env),
    jitter cfg = false ->
    rng (snd (wrapper_loop cfg func attempts last st)) = rng st.
Proof.
  induction attempts as [| a rest IH]; intros last st Hj.
  - simpl. destruct last; reflexivity.
  - simpl. destruct (func (world st)) as [[v | e] w]; [reflexivity |].
    destruct (isinstance_any e (retryable_exceptions cfg)); [| reflexivity].
    destruct (max_retries cfg <=? a); [reflexivity |].
    unfold calculate_delay. rewrite Hj.
    destruct (if isinstance e MenderRateLimitError then retry_after e else None);
      rewrite IH by exact Hj; reflexivity.
Qed.

End WrapperShape.



(** With jitter disabled the wrapper consumes no randomness, whatever the
    wrapped operation does. *)
Theorem wrapper_without_jitter_draws_nothing {W T : Type} (cfg : RetryConfig)
    (func : W -> Result T * W) (st : Env) :
  jitter cfg = false ->
  rng (snd (wrapper cfg func st)) = rng st.
Proof. intros Hj. unfold wrapper. apply wrapper_loop_no_jitter. exact Hj. Qed.

Lemma wrapper_without_jitter_draws_nothing_witness :
  rng (snd (wrapper config_no_jitter
              (request_once scripted "https://hosted.mender.io" "/devices")
              (env_of [Responded response_503; Responded response_200])))
  = rng_high.
Proof.
  apply (wrapper_without_jitter_draws_nothing config_no_jitter
           (request_once scripted "https://hosted.mender.io" "/devices")
           (env_of [Responded response_503; Responded response_200])).
  reflexivity.
Defined.

Lemma wrapper_negative_budget_witness :
  wrapper config_negative
    (request_once scripted "https://hosted.mender.io" "/devices")
    (env_of [Responded response_200])
  = (Raise (new_builtin RuntimeError "Unexpected state in retry logic"),
     env_of [Responded response_200]).
Proof.
  apply (wrapper_negative_budget config_negative
           (request_once scripted "https://hosted.mender.io" "/devices")
           (env_of [Responded response_200])).
  simpl. lia.
Defined.

Section Schedule.

Context {W T : Type}.
Variable cfg : RetryConfig.
Variable func : W -> Result T * W.
Hypothesis no_jitter : jitter cfg = false.


End Schedule.



(** ** More on the HTTP client *)

Import More.

(** [_request] hands back a response only when its status is 2xx, and
    then it is the response the transport gave. *)
Theorem request_returns_only_success (base path : string) (o : TransportOutcome)
    (r : Response) :
  _request base path o = Ok r ->
  o = Responded r /\ 200 <= resp_status r <= 299.
Proof.
  intros H. destruct o as [r' | | | e]; simpl in H; try discriminate.
  unfold is_success in H.
  destruct (Z.leb_spec 200 (resp_status r'));
    destruct (Z.leb_spec (resp_status r') 299); simpl in H; try discriminate.
  injection H as <-. split; [reflexivity | lia].
Qed.

Lemma request_returns_only_success_witness :
  Responded response_200 = Responded response_200 /\ 200 <= resp_status response_200 <= 299.
Proof.
  apply (request_returns_only_success "https://hosted.mender.io" "/devices"
           (Responded response_200) response_200).
  reflexivity.
Defined.

(** Whatever the transport answers with a status outside 2xx other than
    429 is raised as an instance of [MenderAPIError] that carries the
    status, the decoded body (the text when it is no JSON), the
    [X-Request-Id] header and the extracted message. *)
Theorem request_error_carries_response (base path : string) (r : Response) (e : Exc) :
  _request base path (Responded r) = Raise e ->
  resp_status r <> 429 ->
  isinstance e MenderAPIError = true /\
  status_code e = Some (resp_status r) /\
  request_id e = headers_get "X-Request-Id" (resp_headers r) /\
  response_body e =
    match resp_json r with Some v => v | None => PyStr (resp_text r) end /\
  message e = _extract_error_message (response_body e).
Proof.
  intros H Hs. unfold _request in H.
  destruct (is_success r); simpl in H; [discriminate |].
  injection H as <-.
  unfold _handle_error_response, error_classes.
  destruct (Z.eqb_spec (resp_status r) 400) as [-> | H400]; [repeat split |].
  destruct (Z.eqb_spec (resp_status r) 401) as [-> | H401]; [repeat split |].
  destruct (Z.eqb_spec (resp_status r) 403) as [-> | H403]; [repeat split |].
  destruct (Z.eqb_spec (resp_status r) 404) as [-> | H404]; [repeat split |].
  destruct (Z.eqb_spec (resp_status r) 409) as [-> | H409]; [repeat split |].
  destruct (Z.eqb_spec (resp_status r) 429) as [H429 | _]; [contradiction |].
  destruct ((500 <=? resp_status r) && (resp_status r <? 600)); repeat split.
Qed.

Lemma request_error_carries_response_witness :
  status_code (_handle_error_response
                 (response_of 404 [("x-request-id", "req-7")] (PyDict [("error", PyStr "gone")]))
                 (Some "req-7")) = Some 404 /\
  request_id (_handle_error_response
                (response_of 404 [("x-request-id", "req-7")] (PyDict [("error", PyStr "gone")]))
                (Some "req-7")) = Some "req-7".
Proof.
  destruct (request_error_carries_response "https://hosted.mender.io" "/devices/x"
              (response_of 404 [("x-request-id", "req-7")] (PyDict [("error", PyStr "gone")]))
              (_handle_error_response
                 (response_of 404 [("x-request-id", "req-7")] (PyDict [("error", PyStr "gone")]))
                 (Some "req-7")))
    as (_ & H2 & H3 & _).
  - reflexivity.
  - simpl. lia.
  - split; [exact H2 | exact H3].
Defined.

(** A status that is neither 2xx, nor in the table of client errors, nor
    5xx (1xx, 3xx, the other 4xx, 600 and up) is raised as the plain
    [MenderAPIError]. *)
Theorem other_status_is_plain_api_error (r : Response) (rid : option string) :
  ~ In (resp_status r) [400; 401; 403; 404; 409; 429] ->
  ~ 500 <= resp_status r < 600 ->
  exc_class (_handle_error_response r rid) = MenderAPIError.
Proof.
  intros Ht H5. unfold _handle_error_response, error_classes.
  repeat match goal with
         | |- context [?a =? ?b] =>
             destruct (Z.eqb_spec a b) as [E | _];
             [exfalso; apply Ht; rewrite E; simpl; auto 10 |]
         end.
  destruct (Z.leb_spec 500 (resp_status r)); destruct (Z.ltb_spec (resp_status r) 600);
    simpl; try reflexivity.
  exfalso. apply H5. lia.
Qed.

Lemma other_status_is_plain_api_error_witness :
  exc_class (_handle_error_response (response_of 304 [] PyNone) None) = MenderAPIError.
Proof.
  apply other_status_is_plain_api_error.
  - simpl. intuition discriminate.
  - simpl. lia.
Defined.

(** [rstrip] leaves no trailing separator. *)
Lemma rstrip_char_ends (c : ascii) (s : string) :
  ends_with_char c (rstrip_char c s) = false.
Proof.
  induction s as [| c' s IH]; [reflexivity |].
  cbn [rstrip_char]. destruct (rstrip_char c s) as [| c'' r] eqn:E.
  - destruct (Ascii.eqb c' c) eqn:Ec; [reflexivity |]. simpl. exact Ec.
  - exact IH.
Qed.

(** [rstrip] only drops separators from the end. *)
Lemma rstrip_char_prefix (c : ascii) (s : string) :
  exists n : nat, s = rstrip_char c s +:+ repeat_char c n.
Proof.
  induction s as [| c' s [n IH]].
  - exists 0%nat. reflexivity.
  - cbn [rstrip_char]. destruct (rstrip_char c s) as [| c'' r] eqn:E.
    + destruct (Ascii.eqb_spec c' c) as [-> | Hne].
      * exists (S n). exact (f_equal (String c) IH).
      * exists n. exact (f_equal (String c') IH).
    + exists n. exact (f_equal (String c') IH).
Qed.

(** The base URL a client is built with never ends in a slash; it is the
    given URL (the hosted default when none or an empty one is given)
    with its trailing slashes dropped. *)
Theorem client_base_url_has_no_trailing_slash (url token : option string) (timeout : Q)
    (cfg : option RetryConfig) (verify : bool) :
  ends_with_char "/" (base_url (new_HTTPClient url token timeout cfg verify)) = false /\
  exists n : nat,
    str_or url DEFAULT_BASE_URL =
    base_url (new_HTTPClient url token timeout cfg verify)
    +:+ repeat_char "/" n.
Proof.
  split.
  - apply rstrip_char_ends.
  - apply (rstrip_char_prefix "/").
Qed.

(** With files to upload, no [Content-Type] entry is sent, whatever the
    caller's own headers say; without files, the caller's [Content-Type]
    is sent if there is one and [application/json] otherwise. *)
Theorem request_headers_content_type (self : HTTPClient)
    (headers : option (gmap string string)) :
  request_headers self headers true !! "Content-Type" = None /\
  request_headers self headers false !! "Content-Type" =
    Some (match headers with
          | Some h => default "application/json" (h !! "Content-Type")
          | None => "application/json"
          end).
Proof.
  split.
  - unfold request_headers. apply lookup_delete_eq.
  - unfold request_headers.
    assert (Hd : _headers self !! "Content-Type" = Some "application/json").
    { unfold _headers. destruct (token self) as [t |]; [destruct (String.eqb t "") |].
      - apply lookup_insert_eq.
      - rewrite lookup_insert_ne by discriminate. apply lookup_insert_eq.
      - apply lookup_insert_eq. }
    destruct headers as [h |]; [| exact Hd].
    rewrite lookup_union. rewrite Hd.
    destruct (h !! "Content-Type"); reflexivity.
Qed.

(** The bearer token is sent exactly when a non-empty token is set and the
    caller does not pass an [Authorization] entry of its own, which then
    takes its place. *)
Theorem request_headers_authorization (self : HTTPClient)
    (headers : option (gmap string string)) (has_files : bool) :
  request_headers self headers has_files !! "Authorization" =
  match headers ≫= (fun h => h !! "Authorization") with
  | Some v => Some v
  | None =>
      match token self with
      | Some t => if String.eqb t "" then None else Some ("Bearer " +:+ t)
      | None => None
      end
  end.
Proof.
  assert (Hd : _headers self !! "Authorization" =
               match token self with
               | Some t => if String.eqb t "" then None else Some ("Bearer " +:+ t)
               | None => None
               end).
  { unfold _headers. destruct (token self) as [t |]; [destruct (String.eqb t "") |].
    - rewrite !lookup_insert_ne by discriminate. apply lookup_empty.
    - apply lookup_insert_eq.
    - rewrite !lookup_insert_ne by discriminate. apply lookup_empty. }
  unfold request_headers.
  assert (Hm : (match headers with Some h => h ∪ _headers self | None => _headers self end)
               !! "Authorization" =
               match headers ≫= (fun h => h !! "Authorization") with
               | Some v => Some v
               | None => _headers self !! "Authorization"
               end).
  { destruct headers as [h |]; [| reflexivity].
    rewrite lookup_union. simpl.
    destruct (h !! "Authorization"); destruct (_headers self !! "Authorization");
      reflexivity. }
  destruct has_files.
  - rewrite lookup_delete_ne by discriminate. rewrite Hm, Hd. reflexivity.
  - rewrite Hm, Hd. reflexivity.
Qed.

(** The verbs of the HTTP client call the transport at most four times,
    whatever [retry_config] the client was built with: the decorator does
    not look at it. *)
Theorem client_call_ignores_retry_config {W : Type} (self : HTTPClient)
    (send : W -> TransportOutcome * W) (path : string) (st : Env) :
  (tries (snd (client_call self send path st)) <= tries st + 4)%nat.
Proof.
  unfold client_call, http_call, retry_with_backoff, wrapper.
  apply (wrapper_loop_tries default_config _ (range (max_retries default_config + 1)) None st).
Qed.

(** ** The extracted message is never empty *)

Lemma str_of_int_nonempty (z : Z) : str_of_int z <> "".
Proof.
  unfold str_of_int. destruct z as [| p | p]; simpl.
  - discriminate.
  - pose proof (DecimalPos.Unsigned.to_uint_nonnil p) as H.
    destruct (Pos.to_uint p); simpl; congruence.
  - discriminate.
Qed.

Lemma append_nonempty_l (c : ascii) (s t : string) : String c s +:+ t <> "".
Proof. discriminate. Qed.

Lemma str_truthy_nonempty (v : PyVal) : truthy v = true -> str v <> "".
Proof.
  destruct v as [| [] | z | s | l | d]; simpl; try discriminate.
  - intros _. apply str_of_int_nonempty.
  - destruct (String.eqb_spec s ""); [discriminate | auto].
Qed.

(** Whatever the body, the extracted message has a true value: it is
    never [None], empty, zero or false. *)
Theorem extract_error_message_never_empty (body : PyVal) :
  truthy (_extract_error_message body) = true.
Proof.
  assert (Hstr : forall v, str v <> "" -> truthy (PyStr (str v)) = true).
  { intros v Hv. simpl. destruct (String.eqb_spec (str v) ""); [contradiction | reflexivity]. }
  destruct body as [| b | z | s | l | d];
    try (unfold _extract_error_message;
         match goal with
         | |- context [if truthy ?b then _ else _] =>
             destruct (truthy b) eqn:E;
             [apply Hstr; apply str_truthy_nonempty; exact E | reflexivity]
         end).
  unfold _extract_error_message, py_or.
  destruct (truthy (dict_get "error" d)) eqn:E1; [exact E1 |].
  destruct (truthy (dict_get "message" d)) eqn:E2; [exact E2 |].
  destruct (truthy (dict_get "Error" d)) eqn:E3; [exact E3 |].
  apply Hstr. discriminate.
Qed.

(** ** Page counts and paths *)

(** With a positive page size, [total_pages] is the least number of pages
    that hold [total_count] items; with no total count it is [None]
    whatever the page size; with a total count and page size 0 it raises. *)
Theorem total_pages_is_ceiling {T : Type} (p : PaginatedResponse T) :
  (forall n : Z,
     total_count p = Some n -> 0 < per_page p ->
     exists k : Z,
       total_pages p = Ok (Some k) /\
       (k - 1) * per_page p < n <= k * per_page p) /\
  (total_count p = None -> total_pages p = Ok None) /\
  (forall n : Z,
     total_count p = Some n -> per_page p = 0 ->
     exists e : Exc, total_pages p = Raise e).
Proof.
  split; [| split].
  - intros n Hn Hp. unfold total_pages. rewrite Hn.
    destruct (Z.eqb_spec (per_page p) 0); [lia |].
    eexists. split; [reflexivity |].
    pose proof (Z.div_mod (n + per_page p - 1) (per_page p) ltac:(lia)) as Hdm.
    pose proof (Z.mod_pos_bound (n + per_page p - 1) (per_page p) Hp) as Hmod.
    nia.
  - intros Hn. unfold total_pages. rewrite Hn. reflexivity.
  - intros n Hn Hp. unfold total_pages. rewrite Hn, Hp. simpl. eexists. reflexivity.
Qed.

Lemma total_pages_is_ceiling_witness :
  exists k : Z,
    total_pages (mkPaginatedResponse [1; 2]%nat (Some 45) 1 20 false) = Ok (Some k) /\
    (k - 1) * 20 < 45 <= k * 20.
Proof.
  apply (proj1 (total_pages_is_ceiling
                  (mkPaginatedResponse [1; 2]%nat (Some 45) 1 20 false)) 45).
  - reflexivity.
  - simpl. lia.
Defined.

Lemma contains_char_append (c : ascii) (s t : string) :
  contains_char c (s +:+ t) = contains_char c s || contains_char c t.
Proof.
  induction s as [| c' s IH]; [reflexivity |].
  change (String c' s +:+ t) with (String c' (s +:+ t)).
  cbn [contains_char]. rewrite IH. apply orb_assoc.
Qed.

Lemma contains_slash_after (p b : string) :
  contains_char "/" (p +:+ "/" +:+ b) = true.
Proof.
  rewrite contains_char_append.
  change ("/" +:+ b) with (String "/" b). cbn [contains_char].
  rewrite Ascii.eqb_refl. apply orb_true_r.
Qed.

Lemma slash_suffix_unique (pre : string) :
  forall pre' a b : string,
    contains_char "/" a = false ->
    contains_char "/" b = false ->
    pre +:+ "/" +:+ a = pre' +:+ "/" +:+ b ->
    a = b.
Proof.
  induction pre as [| c pre IH]; intros pre' a b Ha Hb H.
  - destruct pre' as [| c' pre'].
    + injection H as H. exact H.
    + change (String "/" a = String c' (pre' +:+ "/" +:+ b)) in H.
      injection H as _ H. rewrite H, contains_slash_after in Ha. discriminate.
  - destruct pre' as [| c' pre'].
    + change (String c (pre +:+ "/" +:+ a) = String "/" b) in H.
      injection H as _ H. rewrite <- H, contains_slash_after in Hb. discriminate.
    + change (String c (pre +:+ "/" +:+ a) = String c' (pre' +:+ "/" +:+ b)) in H.
      injection H as _ H. exact (IH pre' a b Ha Hb H).
Qed.

(** A string has one final path segment only. *)
Lemma final_segment_same (s a b : string) :
  final_segment a s -> final_segment b s -> a = b.
Proof.
  intros [Ha [Hsa | [pa Hpa]]] [Hb [Hsb | [pb Hpb]]].
  - congruence.
  - rewrite Hsa in Hpb. rewrite Hpb, contains_slash_after in Ha. discriminate.
  - rewrite Hsb in Hpa. rewrite Hpa, contains_slash_after in Hb. discriminate.
  - rewrite Hpa in Hpb. exact (slash_suffix_unique pa pb a b Ha Hb Hpb).
Qed.

(** Whatever is the final path segment of a [Location] value (free of
    slashes, and either the whole value or what follows its last slash)
    is what [location.split("/")[-1]] returns: the extracted identifier is
    determined by the header. *)
Theorem location_id_is_the_final_segment (s seg : string) :
  final_segment seg s -> location_id s = seg.
Proof.
  intros H. apply (final_segment_same s); [apply location_id_final_segment | exact H].
Qed.

Lemma location_id_is_the_final_segment_witness :
  location_id "https://hosted.mender.io/api/management/v1/deployments/deployments/abc-123"
  = "abc-123".
Proof.
  apply location_id_is_the_final_segment.
  split; [reflexivity |]. right.
  exists "https://hosted.mender.io/api/management/v1/deployments/deployments".
  reflexivity.
Defined.

Lemma lstrip_char_no_sep (c : ascii) (s : string) :
  contains_char c s = false -> lstrip_char c s = s.
Proof.
  destruct s as [| c' s]; [reflexivity |].
  cbn [contains_char lstrip_char]. intros H. apply orb_false_iff in H.
  destruct H as [H _]. rewrite Ascii.eqb_sym, H. reflexivity.
Qed.

Lemma rstrip_char_no_sep (c : ascii) (s : string) :
  contains_char c s = false -> rstrip_char c s = s.
Proof.
  induction s as [| c' s IH]; [reflexivity |].
  cbn [contains_char rstrip_char]. intros H. apply orb_false_iff in H.
  destruct H as [H1 H2]. rewrite (IH H2).
  destruct s; [| reflexivity]. rewrite Ascii.eqb_sym, H1. reflexivity.
Qed.

Lemma build_path_snoc (base : string) (parts : list string) (part : string) :
  part <> "" ->
  _build_path base (parts ++ [part]) =
  _build_path base parts +:+ "/" +:+ strip_char "/" part.
Proof.
  intros Hp. unfold _build_path. rewrite fold_left_app. simpl.
  destruct (String.eqb_spec part ""); [contradiction | reflexivity].
Qed.

(** The identifier a path ends with is the identifier read back from the
    path: for a non-empty [id] without a slash,
    [_build_path(..., id).split("/")[-1]] is [id]. *)
Theorem build_path_id_round_trip (base : string) (parts : list string) (id : string) :
  id <> "" ->
  contains_char "/" id = false ->
  location_id (_build_path base (parts ++ [id])) = id.
Proof.
  intros Hne Hid. rewrite build_path_snoc by exact Hne.
  unfold strip_char. rewrite lstrip_char_no_sep, rstrip_char_no_sep by exact Hid.
  apply (final_segment_same (_build_path base parts +:+ "/" +:+ id)).
  - apply location_id_final_segment.
  - split; [exact Hid |]. right. exists (_build_path base parts). reflexivity.
Qed.

Lemma build_path_id_round_trip_witness :
  location_id (_build_path "/api/management/v1/deployments" (["deployments"] ++ ["abc-123"]))
  = "abc-123".
Proof.
  apply build_path_id_round_trip.
  - discriminate.
  - reflexivity.
Defined.

(** [search_devices] finds the total count under any spelling of the
    header name, and a value [int] rejects leaves it at [None]. *)
Theorem search_total_count_any_case (h : Headers) (name v : string) :
  lower name = "x-total-count" ->
  headers_get name h = Some v ->
  search_total_count h = int_of_str v.
Proof.
  intros Hn Hv. unfold search_total_count.
  rewrite (headers_get_same_lower "X-Total-Count" name) by (rewrite Hn; reflexivity).
  rewrite Hv. reflexivity.
Qed.

Lemma search_total_count_any_case_witness :
  search_total_count [("X-TOTAL-COUNT", "42")] = Some 42 /\
  search_total_count [("x-total-count", "many")] = None.
Proof.
  split.
  - apply (search_total_count_any_case [("X-TOTAL-COUNT", "42")] "X-TOTAL-COUNT" "42");
      reflexivity.
  - apply (search_total_count_any_case [("x-total-count", "many")] "x-total-count" "many");
      reflexivity.
Defined.

(** ** More on iteration *)

Section IterationMore.

Context {W T : Type}.
Variable fetch_page : W -> Z -> Z -> Result (PaginatedResponse T) * W.
Variable per_page : Z.

(** Pages that go on, then a fetch that raises. *)
Lemma iter_from_failure (rs : list (PaginatedResponse T)) :
  forall (w w1 w' : W) (p : Z) (e : Exc) (fuel : nat),
    fetches fetch_page per_page w p rs w1 ->
    Forall (goes_on per_page) rs ->
    fetch_page w1 (p + Z.of_nat (length rs)) per_page = (Raise e, w') ->
    (length rs < fuel)%nat ->
    iter_from fetch_page per_page fuel w p =
    Some (mkIterRun (concat (List.map items rs))
            (pages_from p (S (length rs))) (Failed e) w').
Proof.
  induction rs as [| x rs IH]; intros w w1 w' p e fuel Hf Hg He Hfuel.
  - destruct fuel as [| fuel]; [simpl in Hfuel; lia |].
    inversion Hf; subst. simpl in He. rewrite Z.add_0_r in He.
    simpl. rewrite He. reflexivity.
  - destruct fuel as [| fuel]; [simpl in Hfuel; lia |].
    inversion Hf as [| w0 w2 w3 p0 r0 rs0 Hx Hrest]; subst.
    inversion Hg as [| ? ? Hg1 Hg2]; subst.
    cbn [iter_from]. rewrite Hx, (goes_on_stops_after per_page x Hg1).
    rewrite (IH w2 w1 w' (p + 1) e fuel Hrest Hg2).
    + reflexivity.
    + rewrite <- He. f_equal. simpl length. lia.
    + simpl in Hfuel. lia.
Qed.

End IterationMore.

(** When the pages fetched so far all go on and the next fetch raises,
    the iterator has yielded the items of the pages fetched so far, in
    order, then raises that error; it fetches nothing after it. *)
Theorem iter_devices_propagates_failure {W T : Type}
    (fetch_page : W -> Z -> Z -> Result (PaginatedResponse T) * W) (per_page : Z)
    (w w1 w' : W) (rs : list (PaginatedResponse T)) (e : Exc) (fuel : nat) :
  fetches fetch_page per_page w 1 rs w1 ->
  Forall (goes_on per_page) rs ->
  fetch_page w1 (1 + Z.of_nat (length rs)) per_page = (Raise e, w') ->
  (length rs < fuel)%nat ->
  iter_devices fetch_page per_page fuel w =
  Some (mkIterRun (concat (List.map items rs))
          (pages_from 1 (S (length rs))) (Failed e) w').
Proof. apply iter_from_failure. Qed.

Lemma iter_devices_propagates_failure_witness :
  iter_devices failing_second_page 20 5 tt =
  Some (mkIterRun (concat (List.map items [full_claim 20 1 20])) [1; 2]
          (Failed (new_MenderTimeoutError "Request to /devices timed out")) tt).
Proof.
  apply (iter_devices_propagates_failure failing_second_page 20 tt tt tt
           [full_claim 20 1 20]).
  - repeat econstructor.
  - repeat constructor; simpl; lia.
  - reflexivity.
  - simpl. lia.
Defined.

Section ListingIteration.

Context {W T : Type}.
Variable get : W -> Z -> Z -> Result Response * W.
Variable from_dict : PyVal -> T.
Variable per_page : Z.



End ListingIteration.





(** ** Models *)

Import Models.

(** Writing an attribute with [to_dict] and reading it back with
    [from_dict] gives the attribute again, except that a description with
    a false value (empty, say) is not written and reads back as [None]. *)
Theorem device_attribute_round_trip (a : DeviceAttribute) :
  DeviceAttribute_from_dict (DeviceAttribute_to_dict a) =
  Ok (mkDeviceAttribute (attr_name a) (attr_value a) (attr_scope a)
        (if truthy (attr_description a) then attr_description a else PyNone)).
Proof.
  destruct a as [name value scope description].
  unfold DeviceAttribute_to_dict. simpl.
  destruct (truthy description); destruct scope; reflexivity.
Qed.

(** [from_dict] needs a [name] and a known [scope]: without a [name] key
    it raises, with a [scope] outside the four known values it raises
    [ValueError], and without a [scope] key the scope is [inventory]. *)
Theorem device_attribute_from_dict_errors (data : list (string * PyVal)) :
  (dict_lookup "name" data = None ->
   DeviceAttribute_from_dict data = Raise (KeyError "name")) /\
  (forall name v : PyVal,
     dict_lookup "name" data = Some name ->
     dict_lookup "scope" data = Some v ->
     (forall s : AttributeScope, v <> PyStr (scope_value s)) ->
     exists e : Exc,
       DeviceAttribute_from_dict data = Raise e /\ exc_class e = ValueError) /\
  (forall name : PyVal,
     dict_lookup "name" data = Some name ->
     dict_lookup "scope" data = None ->
     DeviceAttribute_from_dict data =
     Ok (mkDeviceAttribute name (dict_get "value" data) INVENTORY
           (dict_get "description" data))).
Proof.
  split; [| split].
  - intros H. unfold DeviceAttribute_from_dict. rewrite H. reflexivity.
  - intros name v Hn Hs Hv. unfold DeviceAttribute_from_dict. rewrite Hn, Hs.
    unfold AttributeScope_of.
    destruct v as [| b | z | s | l | d]; try (eexists; split; reflexivity).
    destruct (String.eqb_spec s "identity") as [-> | _];
      [exfalso; apply (Hv IDENTITY); reflexivity |].
    destruct (String.eqb_spec s "inventory") as [-> | _];
      [exfalso; apply (Hv INVENTORY); reflexivity |].
    destruct (String.eqb_spec s "system") as [-> | _];
      [exfalso; apply (Hv SYSTEM); reflexivity |].
    destruct (String.eqb_spec s "tags") as [-> | _];
      [exfalso; apply (Hv TAGS); reflexivity |].
    eexists; split; reflexivity.
  - intros name Hn Hs. unfold DeviceAttribute_from_dict. rewrite Hn, Hs. reflexivity.
Qed.

Lemma device_attribute_from_dict_errors_witness :
  DeviceAttribute_from_dict [("value", PyInt 1)] = Raise (KeyError "name") /\
  DeviceAttribute_from_dict [("name", PyStr "mac")] =
    Ok (mkDeviceAttribute (PyStr "mac") PyNone INVENTORY PyNone).
Proof.
  split.
  - apply (proj1 (device_attribute_from_dict_errors [("value", PyInt 1)])).
    reflexivity.
  - apply (proj2 (proj2 (device_attribute_from_dict_errors [("name", PyStr "mac")]))
             (PyStr "mac"));
      reflexivity.
Defined.

(** [get_attribute] returns the first attribute with the given name (and
    scope, when one is given), and [None] exactly when there is none. *)
Theorem get_attribute_first_match (attributes : list DeviceAttribute) (name : string)
    (scope : option AttributeScope) :
  (forall a : DeviceAttribute,
     get_attribute attributes name scope = Some a ->
     exists before after : list DeviceAttribute,
       attributes = before ++ a :: after /\
       attribute_matches name scope a = true /\
       Forall (fun x => attribute_matches name scope x = false) before) /\
  (get_attribute attributes name scope = None <->
   Forall (fun x => attribute_matches name scope x = false) attributes).
Proof.
  induction attributes as [| x rest [IH1 IH2]].
  - split; [discriminate |]. split; [constructor | reflexivity].
  - cbn [get_attribute]. destruct (attribute_matches name scope x) eqn:E.
    + split.
      * intros a H. injection H as <-. exists [], rest. repeat split; [exact E | constructor].
      * split; [discriminate |]. intros H. inversion H; congruence.
    + split.
      * intros a H. destruct (IH1 a H) as (before & after & -> & Hm & Hb).
        exists (x :: before), after. repeat split; [exact Hm |].
        constructor; assumption.
      * split.
        -- intros H. constructor; [exact E | apply IH2; exact H].
        -- intros H. inversion H; subst. apply IH2. assumption.
Qed.

Lemma get_attribute_first_match_witness :
  exists before after : list DeviceAttribute,
    [mkDeviceAttribute (PyStr "mac") (PyStr "aa:bb") IDENTITY PyNone;
     mkDeviceAttribute (PyStr "env") (PyStr "prod") TAGS PyNone;
     mkDeviceAttribute (PyStr "env") (PyStr "test") INVENTORY PyNone]
    = before ++ mkDeviceAttribute (PyStr "env") (PyStr "prod") TAGS PyNone :: after /\
    attribute_matches "env" None
      (mkDeviceAttribute (PyStr "env") (PyStr "prod") TAGS PyNone) = true /\
    Forall (fun x => attribute_matches "env" None x = false) before.
Proof.
  apply (proj1 (get_attribute_first_match
                  [mkDeviceAttribute (PyStr "mac") (PyStr "aa:bb") IDENTITY PyNone;
                   mkDeviceAttribute (PyStr "env") (PyStr "prod") TAGS PyNone;
                   mkDeviceAttribute (PyStr "env") (PyStr "test") INVENTORY PyNone]
                  "env" None)).
  reflexivity.
Defined.

Lemma entry_if_keys (c : bool) (k : string) (v : PyVal) :
  List.map fst (entry_if c k v) `sublist_of` [k].
Proof. destruct c; simpl; [reflexivity | apply sublist_nil_l]. Qed.

(** The request body of a new deployment never has a key twice, and it
    always has [name] and [artifact_name] with the values given. *)
Theorem new_deployment_to_dict_keys (d : NewDeployment) :
  NoDup (List.map fst (NewDeployment_to_dict d)) /\
  dict_lookup "name" (NewDeployment_to_dict d) = Some (PyStr (nd_name d)) /\
  dict_lookup "artifact_name" (NewDeployment_to_dict d) = Some (PyStr (nd_artifact_name d)).
Proof.
  split; [| split; reflexivity].
  apply (sublist_NoDup _
           ["name"; "artifact_name"; "devices"; "group"; "all_devices"; "phases";
            "retries"; "max_devices"; "filter_id"; "update_control_map";
            "autogenerate_delta"; "force_installation"]).
  - repeat (apply NoDup_cons_2;
            [rewrite ?elem_of_cons, elem_of_nil; intuition discriminate |]).
    apply NoDup_nil_2.
  - unfold NewDeployment_to_dict. rewrite !List.map_app.
    change ["name"; "artifact_name"; "devices"; "group"; "all_devices"; "phases";
            "retries"; "max_devices"; "filter_id"; "update_control_map";
            "autogenerate_delta"; "force_installation"]
      with (["name"; "artifact_name"] ++ ["devices"] ++ ["group"] ++ ["all_devices"]
            ++ ["phases"] ++ ["retries"] ++ ["max_devices"] ++ ["filter_id"]
            ++ ["update_control_map"] ++ ["autogenerate_delta"] ++ ["force_installation"]).
    repeat (apply sublist_app; [first [reflexivity | apply entry_if_keys | idtac] |]);
      try apply entry_if_keys;
      try (destruct (nd_max_devices d); simpl; [reflexivity | apply sublist_nil_l]);
      try (destruct (nd_autogenerate_delta d); simpl; [reflexivity | apply sublist_nil_l]);
      try (destruct (nd_force_installation d); simpl; [reflexivity | apply sublist_nil_l]).
Qed.

(** A deployment for a list of devices names no group and not all
    devices; an empty list sends no [devices] key at all; [retries] is
    sent only when positive; [force_installation] is sent as [true] when
    asked for and left out otherwise, never sent as [false]. *)
Theorem deployment_for_devices_body (name artifact_name : string)
    (device_ids : list string) (retries : Z) (force : bool) :
  let body :=
    NewDeployment_to_dict (deployment_for_devices name artifact_name device_ids retries force) in
  dict_lookup "devices" body =
    (match device_ids with
     | [] => None
     | _ => Some (PyList (List.map PyStr device_ids))
     end) /\
  dict_lookup "group" body = None /\
  dict_lookup "all_devices" body = None /\
  dict_lookup "retries" body = (if 0 <? retries then Some (PyInt retries) else None) /\
  dict_lookup "force_installation" body = (if force then Some (PyBool true) else None).
Proof.
  unfold NewDeployment_to_dict, deployment_for_devices. simpl.
  destruct device_ids as [| i ids]; destruct (0 <? retries); destruct force;
    simpl; repeat split.
Qed.

(** ** Instances *)

Lemma rate_limit_without_hint_witness :
  exc_class (_handle_error_response
               (response_of 429 [] (PyDict [("error", PyStr "slow down")])) None)
  = MenderRateLimitError /\
  retry_after (_handle_error_response
                 (response_of 429 [] (PyDict [("error", PyStr "slow down")])) None)
  = None.
Proof.
  apply rate_limit_without_hint.
  - reflexivity.
  - left. reflexivity.
Defined.

Lemma rate_limit_with_hint_witness :
  exc_class (_handle_error_response (response_429 " 30 ") None) = MenderRateLimitError /\
  retry_after (_handle_error_response (response_429 " 30 ") None) = Some 30.
Proof.
  apply (rate_limit_with_hint (response_429 " 30 ") None " 30 " 30); reflexivity.
Defined.

